(** * Jadard JD9365TN DSI panel driver (panel-jadard-jd9365tn.c)

    A shallow embedding of the panel driver's lifecycle hooks and of the
    vendor init script, together with the properties of the power
    sequencing, of the accumulated-error command context, and of the
    reported display mode.

    The driver talks to three kernel subsystems.  They are modelled by an
    explicit [world]: the logical level of each GPIO line, the module
    parameter [complex_dbg_pattern], and a chronological log of every
    GPIO write, sleep, and DSI transaction that reached the hardware.  The
    outcome of a DSI transaction is supplied by the bus handle
    ([xfer]), so every hook can be run against any bus behaviour.
    Kernel log output (pr_info, pr_err, dev_err) is not modelled. *)

From Stdlib Require Import ZArith List String Bool Lia DecimalString.
Import ListNotations.
Open Scope Z_scope.

(* ------------------------------------------------------------------ *)
(** ** C integers *)

(** [if (x)] on a C integer. *)
Definition c_true (x : Z) : bool := negb (x =? 0).

(** Range of a C [int] (32 bits, two's complement). *)
Definition int_min : Z := - 2 ^ 31.
Definition int_max : Z := 2 ^ 31 - 1.
Definition in_int (x : Z) : bool := (int_min <=? x) && (x <=? int_max).

(** errno value used by the driver (include/uapi/asm-generic/errno-base.h). *)
Definition ENOMEM : Z := 12.

(* ------------------------------------------------------------------ *)
(** ** Hardware events and the world *)

(** The four GPIO descriptors held by [struct jadard]. *)
Inductive gpio_line : Type := gpio_reset | gpio_vdd | gpio_vccio | gpio_dbg.

Definition gpio_line_eqb (a b : gpio_line) : bool :=
  match a, b with
  | gpio_reset, gpio_reset | gpio_vdd, gpio_vdd
  | gpio_vccio, gpio_vccio | gpio_dbg, gpio_dbg => true
  | _, _ => false
  end.

Inductive mipi_dsi_dcs_tear_mode : Type :=
| MIPI_DSI_DCS_TEAR_MODE_VBLANK
| MIPI_DSI_DCS_TEAR_MODE_VHBLANK.

(** One transaction on the DSI command bus. *)
Inductive dsi_cmd : Type :=
| DcsWriteBuffer (data : list Z)            (* mipi_dsi_dcs_write_buffer *)
| DcsNop                                    (* mipi_dsi_dcs_nop *)
| DcsSetTearOn (m : mipi_dsi_dcs_tear_mode) (* mipi_dsi_dcs_set_tear_on *)
| DcsExitSleepMode                          (* mipi_dsi_dcs_exit_sleep_mode *)
| DcsSetDisplayOn                           (* mipi_dsi_dcs_set_display_on *)
| DcsSetDisplayOff                          (* mipi_dsi_dcs_set_display_off *)
| DcsEnterSleepMode.                        (* mipi_dsi_dcs_enter_sleep_mode *)

Inductive event : Type :=
| EGpio (l : gpio_line) (v : Z)   (* gpiod_set_value(l, v) *)
| EMsleep (ms : Z)                (* msleep(ms) *)
| EUsleepRange (lo hi : Z)        (* usleep_range(lo, hi) *)
| EDsi (c : dsi_cmd).             (* a transaction issued on the bus *)

Record world : Type := mkWorld {
  lvl_reset : Z;
  lvl_vdd : Z;
  lvl_vccio : Z;
  lvl_dbg : Z;
  complex_dbg_pattern : Z;   (* static int complex_dbg_pattern = 0; module_param *)
  xfers : nat;               (* number of bus transactions issued so far *)
  trace : list event         (* oldest event first *)
}.

Definition level (l : gpio_line) (w : world) : Z :=
  match l with
  | gpio_reset => lvl_reset w
  | gpio_vdd => lvl_vdd w
  | gpio_vccio => lvl_vccio w
  | gpio_dbg => lvl_dbg w
  end.

Definition log (e : event) (w : world) : world :=
  mkWorld (lvl_reset w) (lvl_vdd w) (lvl_vccio w) (lvl_dbg w)
          (complex_dbg_pattern w) (xfers w) (trace w ++ [e]).

Definition set_level (l : gpio_line) (v : Z) (w : world) : world :=
  mkWorld (if gpio_line_eqb l gpio_reset then v else lvl_reset w)
          (if gpio_line_eqb l gpio_vdd then v else lvl_vdd w)
          (if gpio_line_eqb l gpio_vccio then v else lvl_vccio w)
          (if gpio_line_eqb l gpio_dbg then v else lvl_dbg w)
          (complex_dbg_pattern w) (xfers w) (trace w).

Definition count_xfer (w : world) : world :=
  mkWorld (lvl_reset w) (lvl_vdd w) (lvl_vccio w) (lvl_dbg w)
          (complex_dbg_pattern w) (S (xfers w)) (trace w).

(** The state right after attach: reset and dbg requested GPIOD_OUT_HIGH,
    vdd and vccio GPIOD_OUT_LOW ([jadard_dsi_probe]); nothing sent yet. *)
Definition attached_world (dbg_pattern : Z) : world :=
  mkWorld 1 0 0 1 dbg_pattern 0 [].

(* ------------------------------------------------------------------ *)
(** ** A state monad over the world *)

Definition M (A : Type) : Type := world -> A * world.

Definition ret {A : Type} (a : A) : M A := fun w => (a, w).

Definition bind {A B : Type} (m : M A) (f : A -> M B) : M B :=
  fun w => let (a, w') := m w in f a w'.

Declare Scope m_scope.
Delimit Scope m_scope with m.
Notation "x <- m ;; k" := (bind m (fun x => k))
  (at level 61, m at next level, right associativity) : m_scope.
Notation "m ;; k" := (bind m (fun _ => k))
  (at level 61, right associativity) : m_scope.
Open Scope m_scope.

(** [if (c) stmt;] *)
Definition when (c : bool) (m : M unit) : M unit := if c then m else ret tt.

(** Result and final world of a run. *)
Definition result {A : Type} (m : M A) (w : world) : A := fst (m w).
Definition final {A : Type} (m : M A) (w : world) : world := snd (m w).

(** The events a run appends to the log. *)
Definition emitted {A : Type} (m : M A) (w : world) : list event :=
  skipn (List.length (trace w)) (trace (final m w)).

(* ------------------------------------------------------------------ *)
(** ** Kernel primitives used by the driver *)

Definition gpiod_set_value (l : gpio_line) (v : Z) : M unit :=
  fun w => (tt, log (EGpio l v) (set_level l v w)).

Definition msleep (ms : Z) : M unit := fun w => (tt, log (EMsleep ms) w).

Definition usleep_range (lo hi : Z) : M unit :=
  fun w => (tt, log (EUsleepRange lo hi) w).

Definition read_complex_dbg_pattern : M Z :=
  fun w => (complex_dbg_pattern w, w).

Inductive mipi_dsi_pixel_format : Type :=
| MIPI_DSI_FMT_RGB888
| MIPI_DSI_FMT_RGB666
| MIPI_DSI_FMT_RGB666_PACKED
| MIPI_DSI_FMT_RGB565.

(** mipi_dsi_pixel_format_to_bpp (include/drm/drm_mipi_dsi.h). *)
Definition mipi_dsi_pixel_format_to_bpp (f : mipi_dsi_pixel_format) : Z :=
  match f with
  | MIPI_DSI_FMT_RGB888 | MIPI_DSI_FMT_RGB666 => 24
  | MIPI_DSI_FMT_RGB666_PACKED => 18
  | MIPI_DSI_FMT_RGB565 => 16
  end.

Inductive mipi_dsi_mode_flag : Type :=
| MIPI_DSI_MODE_VIDEO
| MIPI_DSI_MODE_VIDEO_BURST
| MIPI_DSI_MODE_NO_EOT_PACKET
| MIPI_DSI_MODE_LPM.

(** [struct mipi_dsi_device]: the configuration fields the driver writes
    (mode_flags, format and lanes, prefixed here because the descriptor
    has members of the same names) and the bus behind the handle.
    [xfer n c] is the status the bus returns for transaction [c] when [n]
    transactions were issued before it: negative is an errno, anything
    else is success. *)
Record mipi_dsi_device : Type := mkDsi {
  xfer : nat -> dsi_cmd -> Z;
  dsi_mode_flags : list mipi_dsi_mode_flag;
  dsi_format : mipi_dsi_pixel_format;
  dsi_lanes : Z
}.

(** Issue one transaction and obtain its status. *)
Definition dsi_transfer (dsi : mipi_dsi_device) (c : dsi_cmd) : M Z :=
  fun w => (xfer dsi (xfers w) c, count_xfer (log (EDsi c) w)).

(** mipi_dsi_dcs_nop: 0 on success or a negative error code. *)
Definition mipi_dsi_dcs_nop (dsi : mipi_dsi_device) : M Z :=
  err <- dsi_transfer dsi DcsNop ;;
  if err <? 0 then ret err else ret 0.

(** *** The accumulated-error context (struct mipi_dsi_multi_context)

    The helpers below are the kernel's DRM MIPI-DSI multi helpers
    (include/drm/drm_mipi_dsi.h, drivers/gpu/drm/drm_mipi_dsi.c), which the
    driver only calls.  Their contract, from the kernel documentation of
    [accum_err]: init to 0; if a function encounters an error then the
    error code will be stored here; if you call a function and this
    points to a non-zero value then the function will be a noop.  Each
    helper therefore starts with [if (ctx->accum_err) return;], issues its
    transaction, and stores the status when it is negative; the macro
    mipi_dsi_msleep sleeps only [if (!(ctx)->accum_err)].  The C code
    updates the context through a pointer; here each helper returns the
    updated context. *)
Record mipi_dsi_multi_context : Type := mkCtx {
  ctx_dsi : mipi_dsi_device;
  accum_err : Z
}.

Definition multi_transfer (ctx : mipi_dsi_multi_context) (c : dsi_cmd)
  : M mipi_dsi_multi_context :=
  if c_true (accum_err ctx) then ret ctx
  else
    r <- dsi_transfer (ctx_dsi ctx) c ;;
    if r <? 0 then ret (mkCtx (ctx_dsi ctx) r) else ret ctx.

Definition mipi_dsi_dcs_write_buffer_multi ctx (data : list Z) :=
  multi_transfer ctx (DcsWriteBuffer data).

(** #define mipi_dsi_dcs_write_seq_multi(ctx, cmd, seq...):
    static const u8 d[] = { cmd, seq }; write_buffer_multi(ctx, d, size). *)
Definition mipi_dsi_dcs_write_seq_multi ctx (cmd : Z) (seq : list Z) :=
  mipi_dsi_dcs_write_buffer_multi ctx (cmd :: seq).

Definition mipi_dsi_dcs_set_tear_on_multi ctx (m : mipi_dsi_dcs_tear_mode) :=
  multi_transfer ctx (DcsSetTearOn m).
Definition mipi_dsi_dcs_exit_sleep_mode_multi ctx :=
  multi_transfer ctx DcsExitSleepMode.
Definition mipi_dsi_dcs_set_display_on_multi ctx :=
  multi_transfer ctx DcsSetDisplayOn.
Definition mipi_dsi_dcs_set_display_off_multi ctx :=
  multi_transfer ctx DcsSetDisplayOff.
Definition mipi_dsi_dcs_enter_sleep_mode_multi ctx :=
  multi_transfer ctx DcsEnterSleepMode.

(** #define mipi_dsi_msleep(ctx, delay): if (!(ctx)->accum_err) msleep(delay) *)
Definition mipi_dsi_msleep (ctx : mipi_dsi_multi_context) (delay : Z)
  : M mipi_dsi_multi_context :=
  if c_true (accum_err ctx) then ret ctx else (msleep delay ;; ret ctx).

(* ------------------------------------------------------------------ *)
(** ** Display modes and the connector *)

(** The fields of [struct drm_display_mode] the driver initialises or
    the mode helpers read. *)
Record drm_display_mode : Type := mkMode {
  clock : Z;          (* kHz *)
  hdisplay : Z;
  hsync_start : Z;
  hsync_end : Z;
  htotal : Z;
  vdisplay : Z;
  vsync_start : Z;
  vsync_end : Z;
  vtotal : Z;
  width_mm : Z;
  height_mm : Z;
  type : Z;
  flags : Z;
  name : string
}.

Definition DRM_MODE_TYPE_PREFERRED : Z := Z.shiftl 1 3.
Definition DRM_MODE_TYPE_DRIVER : Z := Z.shiftl 1 6.
Definition DRM_MODE_FLAG_INTERLACE : Z := Z.shiftl 1 4.

(** The part of [struct drm_connector] that get_modes touches. *)
Record drm_connector : Type := mkConnector {
  probed_modes : list drm_display_mode;
  info_width_mm : Z;      (* display_info.width_mm *)
  info_height_mm : Z      (* display_info.height_mm *)
}.

(** drm_mode_duplicate: a copy of the mode, or NULL when the allocation
    of the copy fails.  [alloc_ok] is the outcome of that allocation. *)
Definition drm_mode_duplicate (alloc_ok : bool) (m : drm_display_mode)
  : option drm_display_mode :=
  if alloc_ok then Some m else None.

Definition decimal (z : Z) : string := NilZero.string_of_int (Z.to_int z).

(** drm_mode_set_name: the format is %dx%d%s (width, height, i when the
    mode is interlaced). *)
Definition drm_mode_set_name (m : drm_display_mode) : drm_display_mode :=
  let interlaced := negb (Z.land (flags m) DRM_MODE_FLAG_INTERLACE =? 0) in
  mkMode (clock m) (hdisplay m) (hsync_start m) (hsync_end m) (htotal m)
         (vdisplay m) (vsync_start m) (vsync_end m) (vtotal m)
         (width_mm m) (height_mm m) (type m) (flags m)
         (decimal (hdisplay m) ++ "x" ++ decimal (vdisplay m)
          ++ (if interlaced then "i" else ""))%string.

(** drm_mode_probed_add: list_add_tail on the connector's probed modes. *)
Definition drm_mode_probed_add (c : drm_connector) (m : drm_display_mode)
  : drm_connector :=
  mkConnector (probed_modes c ++ [m]) (info_width_mm c) (info_height_mm c).

Definition set_display_info (c : drm_connector) (w h : Z) : drm_connector :=
  mkConnector (probed_modes c) w h.

(* ------------------------------------------------------------------ *)
(** ** Driver data *)

(** [struct jadard_panel_desc].  The C [init] member receives the panel
    instance; the routine reaches the hardware through the instance's dsi
    handle and GPIO descriptors, so here it receives the dsi handle (the
    GPIO lines are named by [gpio_line]). *)
Record jadard_panel_desc : Type := mkDesc {
  mode : drm_display_mode;
  lanes : Z;
  format : mipi_dsi_pixel_format;
  init : mipi_dsi_device -> M Z;
  lp11_before_reset : bool;
  reset_before_power_off_vcioo : bool;
  vcioo_to_lp11_delay_ms : Z;
  lp11_to_reset_delay_ms : Z;
  backlight_off_to_display_off_delay_ms : Z;
  display_off_to_enter_sleep_delay_ms : Z;
  enter_sleep_to_reset_down_delay_ms : Z
}.

Inductive drm_panel_orientation : Type :=
| DRM_MODE_PANEL_ORIENTATION_UNKNOWN
| DRM_MODE_PANEL_ORIENTATION_NORMAL
| DRM_MODE_PANEL_ORIENTATION_BOTTOM_UP
| DRM_MODE_PANEL_ORIENTATION_LEFT_UP
| DRM_MODE_PANEL_ORIENTATION_RIGHT_UP.

(** [struct jadard]. *)
Record jadard : Type := mkJadard {
  dsi : mipi_dsi_device;
  desc : jadard_panel_desc;
  orientation : drm_panel_orientation
}.

(* ------------------------------------------------------------------ *)
(** ** Lifecycle hooks *)

Definition jadard_disable (j : jadard) : M Z :=
  let dsi_ctx := mkCtx (dsi j) 0 in
  dsi_ctx <- (if c_true (backlight_off_to_display_off_delay_ms (desc j))
              then mipi_dsi_msleep dsi_ctx
                     (backlight_off_to_display_off_delay_ms (desc j))
              else ret dsi_ctx) ;;
  dsi_ctx <- mipi_dsi_dcs_set_display_off_multi dsi_ctx ;;
  dsi_ctx <- (if c_true (display_off_to_enter_sleep_delay_ms (desc j))
              then mipi_dsi_msleep dsi_ctx
                     (display_off_to_enter_sleep_delay_ms (desc j))
              else ret dsi_ctx) ;;
  dsi_ctx <- mipi_dsi_dcs_enter_sleep_mode_multi dsi_ctx ;;
  dsi_ctx <- (if c_true (enter_sleep_to_reset_down_delay_ms (desc j))
              then mipi_dsi_msleep dsi_ctx
                     (enter_sleep_to_reset_down_delay_ms (desc j))
              else ret dsi_ctx) ;;
  ret (accum_err dsi_ctx).

(** The code after the nop check of [jadard_prepare]. *)
Definition jadard_prepare_reset_and_init (j : jadard) : M Z :=
  when (c_true (lp11_to_reset_delay_ms (desc j)))
       (msleep (lp11_to_reset_delay_ms (desc j))) ;;
  gpiod_set_value gpio_reset 0 ;;
  msleep 5 ;;
  gpiod_set_value gpio_reset 1 ;;
  msleep 10 ;;
  gpiod_set_value gpio_reset 0 ;;
  msleep 130 ;;
  r <- init (desc j) (dsi j) ;;
  if c_true r then ret r else ret 0.

Definition jadard_prepare (j : jadard) : M Z :=
  gpiod_set_value gpio_vccio 1 ;;
  gpiod_set_value gpio_vdd 1 ;;
  when (c_true (vcioo_to_lp11_delay_ms (desc j)))
       (msleep (vcioo_to_lp11_delay_ms (desc j))) ;;
  if lp11_before_reset (desc j) then
    r <- mipi_dsi_dcs_nop (dsi j) ;;
    if c_true r then ret r else jadard_prepare_reset_and_init j
  else jadard_prepare_reset_and_init j.

Definition jadard_unprepare (j : jadard) : M Z :=
  gpiod_set_value gpio_reset 0 ;;
  msleep 120 ;;
  when (reset_before_power_off_vcioo (desc j))
       (gpiod_set_value gpio_reset 1 ;;
        usleep_range 1000 2000) ;;
  gpiod_set_value gpio_vdd 0 ;;
  gpiod_set_value gpio_vccio 0 ;;
  ret 0.

Definition jadard_get_modes (j : jadard) (alloc_ok : bool)
    (connector : drm_connector) : Z * drm_connector :=
  let desc_mode := mode (desc j) in
  match drm_mode_duplicate alloc_ok desc_mode with
  | None => (- ENOMEM, connector)
  | Some m =>
      let m := drm_mode_set_name m in
      let connector := drm_mode_probed_add connector m in
      let connector := set_display_info connector (width_mm m) (height_mm m) in
      (1, connector)
  end.

Definition jadard_panel_get_orientation (j : jadard) : drm_panel_orientation :=
  orientation j.

(* ------------------------------------------------------------------ *)
(** ** The init routine of the Shenzen Z34014-P30-365T-Y1 panel

    Each payload is written as the source lays it out: one list per
    source line, appended in order. *)

Definition shenzen_z34014_p30_365t_y1_init_cmds (dsi : mipi_dsi_device) : M Z :=
  gpiod_set_value gpio_dbg 1 ;;
  usleep_range 1000 2000 ;;
  gpiod_set_value gpio_dbg 0 ;;
  dbg_pattern <- read_complex_dbg_pattern ;;
  when (c_true dbg_pattern)
       (usleep_range 1000 2000 ;;
        gpiod_set_value gpio_dbg 1 ;;
        usleep_range 1000 2000 ;;
        gpiod_set_value gpio_dbg 0) ;;
  let dsi_ctx := mkCtx dsi 0 in
  dsi_ctx <- mipi_dsi_dcs_write_seq_multi dsi_ctx 0xDF [0x90; 0x69; 0xF9] ;;
  dsi_ctx <- mipi_dsi_dcs_write_seq_multi dsi_ctx 0xDE [0x00] ;;
  dsi_ctx <- mipi_dsi_dcs_write_seq_multi dsi_ctx 0xCC [0x31] ;;
  dsi_ctx <- mipi_dsi_dcs_write_seq_multi dsi_ctx 0xB2
      ([0x01; 0x23; 0x60; 0x88]
       ++ [0x24; 0x5A; 0x07]) ;;
  dsi_ctx <- mipi_dsi_dcs_write_seq_multi dsi_ctx 0xBB
      ([0x02; 0x1A; 0x33; 0x5A]
       ++ [0x3C; 0x44; 0x44]) ;;
  dsi_ctx <- mipi_dsi_dcs_write_seq_multi dsi_ctx 0xBD [0x00; 0xD0; 0x00] ;;
  dsi_ctx <- mipi_dsi_dcs_write_seq_multi dsi_ctx 0xBF [0x50; 0x3C; 0x33; 0xC3] ;;
  dsi_ctx <- mipi_dsi_dcs_write_seq_multi dsi_ctx 0xC0 [0x01; 0xAD; 0x01; 0xAD] ;;
  dsi_ctx <- mipi_dsi_dcs_write_seq_multi dsi_ctx 0xCB
      ([0x7F; 0x7A; 0x75; 0x6C]
       ++ [0x63; 0x64; 0x57; 0x5C; 0x46; 0x5C; 0x57]
       ++ [0x53; 0x6B; 0x54; 0x56; 0x44; 0x3E; 0x2F]
       ++ [0x1D; 0x14; 0x10; 0x7F; 0x7A; 0x75; 0x6C]
       ++ [0x63; 0x64; 0x57; 0x5C; 0x46; 0x5C; 0x57]
       ++ [0x53; 0x6B; 0x54; 0x56; 0x44; 0x3E; 0x2F]
       ++ [0x1D; 0x14; 0x10; 0x00]) ;;
  dsi_ctx <- mipi_dsi_dcs_write_seq_multi dsi_ctx 0xC3
      ([0x3B; 0x01; 0x00; 0x03]
       ++ [0x08; 0x08; 0x4C; 0x05; 0x4E; 0x05; 0x4E]
       ++ [0x01; 0x48; 0x01; 0x48; 0x01; 0x48; 0x06]
       ++ [0x4A; 0x06; 0x09; 0x06; 0x09; 0x06; 0x09]) ;;
  dsi_ctx <- mipi_dsi_dcs_write_seq_multi dsi_ctx 0xC4
      ([0x01; 0x00; 0x03; 0x08]
       ++ [0x08; 0x4C; 0x05; 0x4E; 0x05; 0x4E; 0x01]
       ++ [0x48; 0x01; 0x48; 0x01; 0x48; 0x06; 0x4A]
       ++ [0x06; 0x09; 0x06; 0x09; 0x06; 0x09]) ;;
  dsi_ctx <- mipi_dsi_dcs_write_seq_multi dsi_ctx 0xC5
      ([0x03; 0x03; 0x08; 0x08]
       ++ [0x4C; 0x05; 0x4E; 0x05; 0x4E; 0x01; 0x48]
       ++ [0x01; 0x48; 0x01; 0x48; 0x06; 0x4A; 0x06]
       ++ [0x09; 0x06; 0x09; 0x06; 0x09]) ;;
  dsi_ctx <- mipi_dsi_dcs_write_seq_multi dsi_ctx 0xC6
      ([0x00; 0x59; 0x00; 0xB4]
       ++ [0x00; 0x13; 0x28; 0x82; 0x00; 0x00; 0x00]
       ++ [0x01; 0x00; 0x01; 0x00; 0x00; 0x00; 0x00]
       ++ [0x00; 0x01; 0x00; 0x00; 0x01]) ;;
  dsi_ctx <- mipi_dsi_dcs_write_seq_multi dsi_ctx 0xC8 [0x2B; 0x1C; 0x78] ;;
  dsi_ctx <- mipi_dsi_dcs_write_seq_multi dsi_ctx 0xCD [0x06; 0x02] ;;
  dsi_ctx <- mipi_dsi_dcs_write_seq_multi dsi_ctx 0xCE
      ([0x00; 0x00; 0x00; 0x0C]
       ++ [0x0C; 0x0C; 0x0C; 0x0C; 0x0C; 0x0C; 0x0C]
       ++ [0x00; 0x00; 0x00; 0x00; 0x00; 0x00; 0x00]
       ++ [0x00; 0x00; 0x00; 0x00; 0x00]) ;;
  dsi_ctx <- mipi_dsi_dcs_write_seq_multi dsi_ctx 0xCF
      ([0x00; 0x00; 0x00; 0x30]
       ++ [0x30; 0x30; 0x30; 0x30; 0x30; 0x30; 0x30]
       ++ [0x00; 0x00; 0x00; 0x00; 0x00; 0x00; 0x00]
       ++ [0x00; 0x00; 0x00; 0x00; 0x00; 0x00; 0x00]
       ++ [0x00; 0x00; 0x00; 0x00; 0x00; 0x00; 0x00]
       ++ [0x00; 0x00; 0x00; 0x00; 0x00; 0x00; 0x00]
       ++ [0x00; 0x00; 0x00; 0x00; 0x00; 0x00; 0xFF]
       ++ [0xFF; 0xFF; 0xFF; 0xFF; 0x3F]) ;;
  dsi_ctx <- mipi_dsi_dcs_write_seq_multi dsi_ctx 0xD0
      ([0x00; 0x1F; 0x1F; 0x11]
       ++ [0x24; 0x24; 0x0B; 0x09; 0x07; 0x05; 0x01]
       ++ [0x1F; 0x1F; 0x1F; 0x1F; 0x1F; 0x1F; 0x1F]
       ++ [0x1F; 0x1F; 0x1F; 0x1F; 0x1F; 0x00; 0x00]
       ++ [0x00; 0x00; 0x00; 0x00]) ;;
  dsi_ctx <- mipi_dsi_dcs_write_seq_multi dsi_ctx 0xD1
      ([0x00; 0x1F; 0x1F; 0x10]
       ++ [0x24; 0x24; 0x0A; 0x08; 0x06; 0x04; 0x00]
       ++ [0x1F; 0x1F; 0x1F; 0x1F; 0x1F; 0x1F; 0x1F]
       ++ [0x1F; 0x1F; 0x1F; 0x1F; 0x1F; 0x00; 0x00]
       ++ [0x00; 0x00; 0x00; 0x00]) ;;
  dsi_ctx <- mipi_dsi_dcs_write_seq_multi dsi_ctx 0xD2
      ([0x00; 0x1F; 0x1F; 0x00]
       ++ [0x24; 0x24; 0x08; 0x0A; 0x04; 0x06; 0x10]
       ++ [0x1F; 0x1F; 0x1F; 0x1F; 0x1F; 0x1F; 0x1F]
       ++ [0x1F; 0x1F; 0x1F; 0x1F; 0x1F]) ;;
  dsi_ctx <- mipi_dsi_dcs_write_seq_multi dsi_ctx 0xD3
      ([0x00; 0x1F; 0x1F; 0x00]
       ++ [0x24; 0x24; 0x09; 0x0B; 0x05; 0x07; 0x11]
       ++ [0x1F; 0x1F; 0x1F; 0x1F; 0x1F; 0x1F; 0x1F]
       ++ [0x1F; 0x1F; 0x1F; 0x1F; 0x1F]) ;;
  dsi_ctx <- mipi_dsi_dcs_write_seq_multi dsi_ctx 0xD4
      ([0x00; 0x20; 0x0C; 0x00; 0x0A; 0x00; 0x0C; 0x00]
       ++ [0x00; 0x00; 0x00; 0x00; 0x00; 0x00; 0x00; 0x00; 0x00; 0x06]
       ++ [0x03; 0x03; 0x00; 0x81; 0x04; 0x4C; 0x00; 0x00; 0x00; 0x00]
       ++ [0x00; 0x00; 0x00; 0x00; 0x00; 0x00; 0x00; 0x00; 0x00; 0x04]
       ++ [0x00; 0x00; 0x00; 0x00; 0x00; 0x00; 0x00; 0x00; 0x00; 0x00]
       ++ [0x00; 0x00; 0x00; 0x80; 0x09; 0x00; 0x0A; 0x06; 0x55; 0x06]
       ++ [0x0D; 0x00; 0x00; 0x00; 0x00; 0x00; 0x00; 0x00; 0x00; 0x02]
       ++ [0x00; 0x00; 0x00; 0x00; 0x00; 0x00; 0x00; 0x00; 0x00; 0x00]
       ++ [0x00; 0x40; 0x00; 0x00; 0x00; 0x00; 0x00; 0x20; 0x00; 0x00]) ;;
  dsi_ctx <- mipi_dsi_dcs_write_seq_multi dsi_ctx 0xD5
      ([0x02; 0x10; 0x01; 0x00; 0x00; 0x00; 0x00; 0x00]
       ++ [0x00; 0xE0; 0x00; 0x00; 0x00; 0x07; 0x32; 0x5A; 0x00; 0x00]
       ++ [0x05; 0x00; 0x01; 0x00; 0x30; 0x74; 0x00; 0x0E; 0x00; 0x08]
       ++ [0x00; 0x71; 0x20; 0x04; 0x10; 0x04; 0x06; 0x00; 0x00; 0x00]
       ++ [0x00; 0x00; 0x00; 0x00; 0x00; 0xFF; 0xFF; 0x00; 0x00; 0x1F]
       ++ [0xFF; 0x00; 0x00; 0x00; 0x1F; 0xFF; 0x00; 0xFF; 0xFF; 0xFF]
       ++ [0xFF; 0xFF; 0xFF; 0x00]) ;;
  dsi_ctx <- mipi_dsi_dcs_write_seq_multi dsi_ctx 0xD7
      ([0x00; 0x34; 0x34; 0x34]
       ++ [0x34; 0x34; 0x34; 0x34; 0x34; 0x34; 0x34]
       ++ [0x34; 0x34; 0x34; 0x34; 0x34; 0x34]) ;;
  dsi_ctx <- mipi_dsi_dcs_write_seq_multi dsi_ctx 0xDE [0x01] ;;
  dsi_ctx <- mipi_dsi_dcs_write_seq_multi dsi_ctx 0xB9 [0x00; 0xFF; 0xFF; 0x04] ;;
  dsi_ctx <- mipi_dsi_dcs_write_seq_multi dsi_ctx 0xC7 [0x1B; 0x14; 0x0E] ;;
  dsi_ctx <- mipi_dsi_dcs_write_seq_multi dsi_ctx 0xDE [0x02] ;;
  dsi_ctx <- mipi_dsi_dcs_write_seq_multi dsi_ctx 0xBB
      ([0x00; 0x00; 0x00; 0x00]
       ++ [0x00; 0x68; 0x69]) ;;
  dsi_ctx <- mipi_dsi_dcs_write_seq_multi dsi_ctx 0xBD [0x1B] ;;
  dsi_ctx <- mipi_dsi_dcs_write_seq_multi dsi_ctx 0xC1
      ([0x00; 0x40; 0x00; 0x02]
       ++ [0x02; 0x02; 0x02; 0x7F; 0x00; 0x00; 0x00]
       ++ [0x00]) ;;
  dsi_ctx <- mipi_dsi_dcs_write_seq_multi dsi_ctx 0xC3 [0x20; 0xFF] ;;
  dsi_ctx <- mipi_dsi_dcs_write_seq_multi dsi_ctx 0xC4
      ([0x00; 0x11; 0x07; 0x00]
       ++ [0x02]) ;;
  dsi_ctx <- mipi_dsi_dcs_write_seq_multi dsi_ctx 0xC6 [0x49; 0x00] ;;
  dsi_ctx <- mipi_dsi_dcs_write_seq_multi dsi_ctx 0xE5
      ([0x00; 0xE6; 0xE5; 0x02]
       ++ [0x27; 0x42; 0x27; 0x42; 0x09; 0x04; 0x00]
       ++ [0x40; 0x00; 0x21; 0x00; 0x00; 0x00; 0x00]
       ++ [0x00; 0x00; 0x00; 0x00; 0x00; 0x00]) ;;
  dsi_ctx <- mipi_dsi_dcs_write_seq_multi dsi_ctx 0xE6
      ([0x10; 0x09; 0xAD; 0x00]
       ++ [0x00; 0x00]) ;;
  dsi_ctx <- mipi_dsi_dcs_write_seq_multi dsi_ctx 0xEC
      ([0x07; 0x07; 0x40; 0x00]
       ++ [0x22; 0x02; 0x00; 0xFF; 0x08; 0x7C; 0x00]
       ++ [0x00; 0x00; 0x00]) ;;
  dsi_ctx <- mipi_dsi_dcs_write_seq_multi dsi_ctx 0xDE [0x03] ;;
  dsi_ctx <- mipi_dsi_dcs_write_seq_multi dsi_ctx 0xD1
      ([0x00; 0x00; 0x21; 0xFF]
       ++ [0x00]) ;;
  dsi_ctx <- mipi_dsi_dcs_write_seq_multi dsi_ctx 0xDE [0x00] ;;
  dsi_ctx <- mipi_dsi_dcs_set_tear_on_multi dsi_ctx MIPI_DSI_DCS_TEAR_MODE_VBLANK ;;
  dsi_ctx <- mipi_dsi_msleep dsi_ctx 30 ;;
  dsi_ctx <- mipi_dsi_dcs_exit_sleep_mode_multi dsi_ctx ;;
  dsi_ctx <- mipi_dsi_msleep dsi_ctx 120 ;;
  dsi_ctx <- mipi_dsi_dcs_set_display_on_multi dsi_ctx ;;
  dsi_ctx <- mipi_dsi_msleep dsi_ctx 10 ;;
  ret (accum_err dsi_ctx).

Definition shenzen_z34014_p30_365t_y1_desc : jadard_panel_desc := {|
  mode := {|
    clock := Z.quot ((480 + 20 + 20 + 40) * (1080 + 180 + 2 + 18) * 60) 1000;
    hdisplay := 480;
    hsync_start := 480 + 20;
    hsync_end := 480 + 20 + 20;
    htotal := 480 + 20 + 20 + 40;
    vdisplay := 1080;
    vsync_start := 1080 + 180;
    vsync_end := 1080 + 180 + 2;
    vtotal := 1080 + 180 + 2 + 18;
    width_mm := 42;
    height_mm := 95;
    type := Z.lor DRM_MODE_TYPE_DRIVER DRM_MODE_TYPE_PREFERRED;
    flags := 0;
    name := ""
  |};
  lanes := 2;
  format := MIPI_DSI_FMT_RGB888;
  init := shenzen_z34014_p30_365t_y1_init_cmds;
  (* members without an initialiser are zero *)
  lp11_before_reset := false;
  reset_before_power_off_vcioo := false;
  vcioo_to_lp11_delay_ms := 0;
  lp11_to_reset_delay_ms := 0;
  backlight_off_to_display_off_delay_ms := 0;
  display_off_to_enter_sleep_delay_ms := 0;
  enter_sleep_to_reset_down_delay_ms := 0
|}.

(** The match table: one compatible string, one descriptor. *)
Definition jadard_of_match : list (string * jadard_panel_desc) :=
  [ ("shenzen,z34014p30365ty1"%string, shenzen_z34014_p30_365t_y1_desc) ].

Fixpoint of_device_get_match_data (tbl : list (string * jadard_panel_desc))
    (compatible : string) : option jadard_panel_desc :=
  match tbl with
  | [] => None
  | (c, d) :: rest =>
      if String.eqb c compatible then Some d
      else of_device_get_match_data rest compatible
  end.

(* ------------------------------------------------------------------ *)
(** ** Probe *)

(** What the platform answers during probe: whether the instance can be
    allocated, the status of each resource lookup (negative: an errno,
    as carried by an ERR_PTR), the orientation read from the device tree,
    and the status of the attach. *)
Record probe_env : Type := mkProbeEnv {
  kzalloc_ok : bool;
  get_reset : Z;
  get_vdd : Z;
  get_vccio : Z;
  get_dbg : Z;
  orientation_ret : Z;
  orientation_val : drm_panel_orientation;
  backlight_ret : Z;
  attach_ret : Z
}.

Record probe_result : Type := mkProbeResult {
  probe_ret : Z;
  probe_dsi : mipi_dsi_device;          (* the dsi device after probe *)
  probe_panel : option jadard           (* the panel left registered *)
}.

Definition jadard_dsi_probe (env : probe_env) (d : jadard_panel_desc)
    (dev : mipi_dsi_device) : probe_result :=
  if negb (kzalloc_ok env) then mkProbeResult (- ENOMEM) dev None
  else
    let dev := mkDsi (xfer dev)
                 [MIPI_DSI_MODE_VIDEO; MIPI_DSI_MODE_VIDEO_BURST;
                  MIPI_DSI_MODE_NO_EOT_PACKET; MIPI_DSI_MODE_LPM]
                 (format d) (lanes d) in
    if get_reset env <? 0 then mkProbeResult (get_reset env) dev None
    else if get_vdd env <? 0 then mkProbeResult (get_vdd env) dev None
    else if get_vccio env <? 0 then mkProbeResult (get_vccio env) dev None
    else if get_dbg env <? 0 then mkProbeResult (get_dbg env) dev None
    else if orientation_ret env <? 0
         then mkProbeResult (orientation_ret env) dev None
    else if c_true (backlight_ret env)
         then mkProbeResult (backlight_ret env) dev None
    else
      let j := mkJadard dev d (orientation_val env) in
      if attach_ret env <? 0 then mkProbeResult (attach_ret env) dev None
      else mkProbeResult (attach_ret env) dev (Some j).

(* ------------------------------------------------------------------ *)
(** ** Command scripts

    A run of calls on one accumulated-error context, as data: one
    [multi_op] per call, interpreted by [run_ops].  [jadard_disable] and
    the init routine are shown below to be such runs. *)

Inductive multi_op : Type :=
| OpWriteSeq (cmd : Z) (seq : list Z)
| OpSetTearOn (m : mipi_dsi_dcs_tear_mode)
| OpExitSleepMode
| OpSetDisplayOn
| OpSetDisplayOff
| OpEnterSleepMode
| OpMsleep (ms : Z).

Definition run_op (op : multi_op) (ctx : mipi_dsi_multi_context)
  : M mipi_dsi_multi_context :=
  match op with
  | OpWriteSeq cmd seq => mipi_dsi_dcs_write_seq_multi ctx cmd seq
  | OpSetTearOn m => mipi_dsi_dcs_set_tear_on_multi ctx m
  | OpExitSleepMode => mipi_dsi_dcs_exit_sleep_mode_multi ctx
  | OpSetDisplayOn => mipi_dsi_dcs_set_display_on_multi ctx
  | OpSetDisplayOff => mipi_dsi_dcs_set_display_off_multi ctx
  | OpEnterSleepMode => mipi_dsi_dcs_enter_sleep_mode_multi ctx
  | OpMsleep ms => mipi_dsi_msleep ctx ms
  end.

Fixpoint run_ops (ops : list multi_op) (ctx : mipi_dsi_multi_context)
  : M mipi_dsi_multi_context :=
  match ops with
  | [] => ret ctx
  | op :: rest => ctx' <- run_op op ctx ;; run_ops rest ctx'
  end.

(** The same run in continuation-passing form: the shape of the
    straight-line C code. *)
Fixpoint run_ops_k {A : Type} (ops : list multi_op)
    (ctx : mipi_dsi_multi_context) (k : mipi_dsi_multi_context -> M A) : M A :=
  match ops with
  | [] => k ctx
  | op :: rest => ctx' <- run_op op ctx ;; run_ops_k rest ctx' k
  end.

(** The bus transaction behind a call; [None] for a sleep. *)
Definition op_cmd (op : multi_op) : option dsi_cmd :=
  match op with
  | OpWriteSeq cmd seq => Some (DcsWriteBuffer (cmd :: seq))
  | OpSetTearOn m => Some (DcsSetTearOn m)
  | OpExitSleepMode => Some DcsExitSleepMode
  | OpSetDisplayOn => Some DcsSetDisplayOn
  | OpSetDisplayOff => Some DcsSetDisplayOff
  | OpEnterSleepMode => Some DcsEnterSleepMode
  | OpMsleep _ => None
  end.

(** The bus writes of a script, in order. *)
Fixpoint bus_cmds (ops : list multi_op) : list dsi_cmd :=
  match ops with
  | [] => []
  | op :: rest =>
      match op_cmd op with
      | Some c => c :: bus_cmds rest
      | None => bus_cmds rest
      end
  end.

(** The bus transactions recorded in a log. *)
Fixpoint dsi_cmds_of (t : list event) : list dsi_cmd :=
  match t with
  | [] => []
  | EDsi c :: rest => c :: dsi_cmds_of rest
  | _ :: rest => dsi_cmds_of rest
  end.

Definition is_write_seq (op : multi_op) : bool :=
  match op with OpWriteSeq _ _ => true | _ => false end.

Definition is_sleep (op : multi_op) : bool :=
  match op with OpMsleep _ => true | _ => false end.

(** A bus-level setting call: a call on the context that is neither a
    register write nor a sleep. *)
Definition is_setting_call (op : multi_op) : bool :=
  negb (is_write_seq op) && negb (is_sleep op).

(** The register writes of the init routine, in source order. *)
Definition init_register_writes : list multi_op := [
  OpWriteSeq 0xDF [0x90; 0x69; 0xF9];
  OpWriteSeq 0xDE [0x00];
  OpWriteSeq 0xCC [0x31];
  OpWriteSeq 0xB2
    ([0x01; 0x23; 0x60; 0x88]
     ++ [0x24; 0x5A; 0x07]);
  OpWriteSeq 0xBB
    ([0x02; 0x1A; 0x33; 0x5A]
     ++ [0x3C; 0x44; 0x44]);
  OpWriteSeq 0xBD [0x00; 0xD0; 0x00];
  OpWriteSeq 0xBF [0x50; 0x3C; 0x33; 0xC3];
  OpWriteSeq 0xC0 [0x01; 0xAD; 0x01; 0xAD];
  OpWriteSeq 0xCB
    ([0x7F; 0x7A; 0x75; 0x6C]
     ++ [0x63; 0x64; 0x57; 0x5C; 0x46; 0x5C; 0x57]
     ++ [0x53; 0x6B; 0x54; 0x56; 0x44; 0x3E; 0x2F]
     ++ [0x1D; 0x14; 0x10; 0x7F; 0x7A; 0x75; 0x6C]
     ++ [0x63; 0x64; 0x57; 0x5C; 0x46; 0x5C; 0x57]
     ++ [0x53; 0x6B; 0x54; 0x56; 0x44; 0x3E; 0x2F]
     ++ [0x1D; 0x14; 0x10; 0x00]);
  OpWriteSeq 0xC3
    ([0x3B; 0x01; 0x00; 0x03]
     ++ [0x08; 0x08; 0x4C; 0x05; 0x4E; 0x05; 0x4E]
     ++ [0x01; 0x48; 0x01; 0x48; 0x01; 0x48; 0x06]
     ++ [0x4A; 0x06; 0x09; 0x06; 0x09; 0x06; 0x09]);
  OpWriteSeq 0xC4
    ([0x01; 0x00; 0x03; 0x08]
     ++ [0x08; 0x4C; 0x05; 0x4E; 0x05; 0x4E; 0x01]
     ++ [0x48; 0x01; 0x48; 0x01; 0x48; 0x06; 0x4A]
     ++ [0x06; 0x09; 0x06; 0x09; 0x06; 0x09]);
  OpWriteSeq 0xC5
    ([0x03; 0x03; 0x08; 0x08]
     ++ [0x4C; 0x05; 0x4E; 0x05; 0x4E; 0x01; 0x48]
     ++ [0x01; 0x48; 0x01; 0x48; 0x06; 0x4A; 0x06]
     ++ [0x09; 0x06; 0x09; 0x06; 0x09]);
  OpWriteSeq 0xC6
    ([0x00; 0x59; 0x00; 0xB4]
     ++ [0x00; 0x13; 0x28; 0x82; 0x00; 0x00; 0x00]
     ++ [0x01; 0x00; 0x01; 0x00; 0x00; 0x00; 0x00]
     ++ [0x00; 0x01; 0x00; 0x00; 0x01]);
  OpWriteSeq 0xC8 [0x2B; 0x1C; 0x78];
  OpWriteSeq 0xCD [0x06; 0x02];
  OpWriteSeq 0xCE
    ([0x00; 0x00; 0x00; 0x0C]
     ++ [0x0C; 0x0C; 0x0C; 0x0C; 0x0C; 0x0C; 0x0C]
     ++ [0x00; 0x00; 0x00; 0x00; 0x00; 0x00; 0x00]
     ++ [0x00; 0x00; 0x00; 0x00; 0x00]);
  OpWriteSeq 0xCF
    ([0x00; 0x00; 0x00; 0x30]
     ++ [0x30; 0x30; 0x30; 0x30; 0x30; 0x30; 0x30]
     ++ [0x00; 0x00; 0x00; 0x00; 0x00; 0x00; 0x00]
     ++ [0x00; 0x00; 0x00; 0x00; 0x00; 0x00; 0x00]
     ++ [0x00; 0x00; 0x00; 0x00; 0x00; 0x00; 0x00]
     ++ [0x00; 0x00; 0x00; 0x00; 0x00; 0x00; 0x00]
     ++ [0x00; 0x00; 0x00; 0x00; 0x00; 0x00; 0xFF]
     ++ [0xFF; 0xFF; 0xFF; 0xFF; 0x3F]);
  OpWriteSeq 0xD0
    ([0x00; 0x1F; 0x1F; 0x11]
     ++ [0x24; 0x24; 0x0B; 0x09; 0x07; 0x05; 0x01]
     ++ [0x1F; 0x1F; 0x1F; 0x1F; 0x1F; 0x1F; 0x1F]
     ++ [0x1F; 0x1F; 0x1F; 0x1F; 0x1F; 0x00; 0x00]
     ++ [0x00; 0x00; 0x00; 0x00]);
  OpWriteSeq 0xD1
    ([0x00; 0x1F; 0x1F; 0x10]
     ++ [0x24; 0x24; 0x0A; 0x08; 0x06; 0x04; 0x00]
     ++ [0x1F; 0x1F; 0x1F; 0x1F; 0x1F; 0x1F; 0x1F]
     ++ [0x1F; 0x1F; 0x1F; 0x1F; 0x1F; 0x00; 0x00]
     ++ [0x00; 0x00; 0x00; 0x00]);
  OpWriteSeq 0xD2
    ([0x00; 0x1F; 0x1F; 0x00]
     ++ [0x24; 0x24; 0x08; 0x0A; 0x04; 0x06; 0x10]
     ++ [0x1F; 0x1F; 0x1F; 0x1F; 0x1F; 0x1F; 0x1F]
     ++ [0x1F; 0x1F; 0x1F; 0x1F; 0x1F]);
  OpWriteSeq 0xD3
    ([0x00; 0x1F; 0x1F; 0x00]
     ++ [0x24; 0x24; 0x09; 0x0B; 0x05; 0x07; 0x11]
     ++ [0x1F; 0x1F; 0x1F; 0x1F; 0x1F; 0x1F; 0x1F]
     ++ [0x1F; 0x1F; 0x1F; 0x1F; 0x1F]);
  OpWriteSeq 0xD4
    ([0x00; 0x20; 0x0C; 0x00; 0x0A; 0x00; 0x0C; 0x00]
     ++ [0x00; 0x00; 0x00; 0x00; 0x00; 0x00; 0x00; 0x00; 0x00; 0x06]
     ++ [0x03; 0x03; 0x00; 0x81; 0x04; 0x4C; 0x00; 0x00; 0x00; 0x00]
     ++ [0x00; 0x00; 0x00; 0x00; 0x00; 0x00; 0x00; 0x00; 0x00; 0x04]
     ++ [0x00; 0x00; 0x00; 0x00; 0x00; 0x00; 0x00; 0x00; 0x00; 0x00]
     ++ [0x00; 0x00; 0x00; 0x80; 0x09; 0x00; 0x0A; 0x06; 0x55; 0x06]
     ++ [0x0D; 0x00; 0x00; 0x00; 0x00; 0x00; 0x00; 0x00; 0x00; 0x02]
     ++ [0x00; 0x00; 0x00; 0x00; 0x00; 0x00; 0x00; 0x00; 0x00; 0x00]
     ++ [0x00; 0x40; 0x00; 0x00; 0x00; 0x00; 0x00; 0x20; 0x00; 0x00]);
  OpWriteSeq 0xD5
    ([0x02; 0x10; 0x01; 0x00; 0x00; 0x00; 0x00; 0x00]
     ++ [0x00; 0xE0; 0x00; 0x00; 0x00; 0x07; 0x32; 0x5A; 0x00; 0x00]
     ++ [0x05; 0x00; 0x01; 0x00; 0x30; 0x74; 0x00; 0x0E; 0x00; 0x08]
     ++ [0x00; 0x71; 0x20; 0x04; 0x10; 0x04; 0x06; 0x00; 0x00; 0x00]
     ++ [0x00; 0x00; 0x00; 0x00; 0x00; 0xFF; 0xFF; 0x00; 0x00; 0x1F]
     ++ [0xFF; 0x00; 0x00; 0x00; 0x1F; 0xFF; 0x00; 0xFF; 0xFF; 0xFF]
     ++ [0xFF; 0xFF; 0xFF; 0x00]);
  OpWriteSeq 0xD7
    ([0x00; 0x34; 0x34; 0x34]
     ++ [0x34; 0x34; 0x34; 0x34; 0x34; 0x34; 0x34]
     ++ [0x34; 0x34; 0x34; 0x34; 0x34; 0x34]);
  OpWriteSeq 0xDE [0x01];
  OpWriteSeq 0xB9 [0x00; 0xFF; 0xFF; 0x04];
  OpWriteSeq 0xC7 [0x1B; 0x14; 0x0E];
  OpWriteSeq 0xDE [0x02];
  OpWriteSeq 0xBB
    ([0x00; 0x00; 0x00; 0x00]
     ++ [0x00; 0x68; 0x69]);
  OpWriteSeq 0xBD [0x1B];
  OpWriteSeq 0xC1
    ([0x00; 0x40; 0x00; 0x02]
     ++ [0x02; 0x02; 0x02; 0x7F; 0x00; 0x00; 0x00]
     ++ [0x00]);
  OpWriteSeq 0xC3 [0x20; 0xFF];
  OpWriteSeq 0xC4
    ([0x00; 0x11; 0x07; 0x00]
     ++ [0x02]);
  OpWriteSeq 0xC6 [0x49; 0x00];
  OpWriteSeq 0xE5
    ([0x00; 0xE6; 0xE5; 0x02]
     ++ [0x27; 0x42; 0x27; 0x42; 0x09; 0x04; 0x00]
     ++ [0x40; 0x00; 0x21; 0x00; 0x00; 0x00; 0x00]
     ++ [0x00; 0x00; 0x00; 0x00; 0x00; 0x00]);
  OpWriteSeq 0xE6
    ([0x10; 0x09; 0xAD; 0x00]
     ++ [0x00; 0x00]);
  OpWriteSeq 0xEC
    ([0x07; 0x07; 0x40; 0x00]
     ++ [0x22; 0x02; 0x00; 0xFF; 0x08; 0x7C; 0x00]
     ++ [0x00; 0x00; 0x00]);
  OpWriteSeq 0xDE [0x03];
  OpWriteSeq 0xD1
    ([0x00; 0x00; 0x21; 0xFF]
     ++ [0x00]);
  OpWriteSeq 0xDE [0x00]
].

(** The calls that close the init routine, in source order. *)
Definition init_tail : list multi_op := [
  OpSetTearOn MIPI_DSI_DCS_TEAR_MODE_VBLANK;
  OpMsleep 30;
  OpExitSleepMode;
  OpMsleep 120;
  OpSetDisplayOn;
  OpMsleep 10
].

Definition init_ops : list multi_op := init_register_writes ++ init_tail.

Definition opt_sleep (ms : Z) : list multi_op :=
  if c_true ms then [OpMsleep ms] else [].

Definition disable_ops (d : jadard_panel_desc) : list multi_op :=
  opt_sleep (backlight_off_to_display_off_delay_ms d)
  ++ [OpSetDisplayOff]
  ++ opt_sleep (display_off_to_enter_sleep_delay_ms d)
  ++ [OpEnterSleepMode]
  ++ opt_sleep (enter_sleep_to_reset_down_delay_ms d).

(** The debug pulses that open the init routine. *)
Definition dbg_preamble : M unit :=
  gpiod_set_value gpio_dbg 1 ;;
  usleep_range 1000 2000 ;;
  gpiod_set_value gpio_dbg 0 ;;
  dbg_pattern <- read_complex_dbg_pattern ;;
  when (c_true dbg_pattern)
       (usleep_range 1000 2000 ;;
        gpiod_set_value gpio_dbg 1 ;;
        usleep_range 1000 2000 ;;
        gpiod_set_value gpio_dbg 0).

(* ------------------------------------------------------------------ *)
(** ** What a script does, as a function of the bus *)

(** A world after [n] more transactions and the events [t]. *)
Definition advance (n : nat) (t : list event) (w : world) : world :=
  mkWorld (lvl_reset w) (lvl_vdd w) (lvl_vccio w) (lvl_dbg w)
          (complex_dbg_pattern w) (xfers w + n) (trace w ++ t).

(** One call on a context whose status is [err], at bus position [n]. *)
Definition step_status (dsi : mipi_dsi_device) (n : nat) (err : Z)
    (op : multi_op) : Z :=
  if c_true err then err
  else match op_cmd op with
       | Some c => if xfer dsi n c <? 0 then xfer dsi n c else err
       | None => err
       end.

Definition step_xfers (err : Z) (op : multi_op) : nat :=
  if c_true err then 0%nat
  else match op_cmd op with Some _ => 1%nat | None => 0%nat end.

Definition op_event (op : multi_op) : event :=
  match op with
  | OpMsleep ms => EMsleep ms
  | OpWriteSeq cmd seq => EDsi (DcsWriteBuffer (cmd :: seq))
  | OpSetTearOn m => EDsi (DcsSetTearOn m)
  | OpExitSleepMode => EDsi DcsExitSleepMode
  | OpSetDisplayOn => EDsi DcsSetDisplayOn
  | OpSetDisplayOff => EDsi DcsSetDisplayOff
  | OpEnterSleepMode => EDsi DcsEnterSleepMode
  end.

Definition step_events (err : Z) (op : multi_op) : list event :=
  if c_true err then [] else [op_event op].

(** Final status, number of transactions issued and events of a script
    started with status [err] at bus position [n]. *)
Fixpoint script (dsi : mipi_dsi_device) (n : nat) (err : Z)
    (ops : list multi_op) : Z * nat * list event :=
  match ops with
  | [] => (err, 0%nat, [])
  | op :: rest =>
      let '(e, m, t) :=
        script dsi (n + step_xfers err op) (step_status dsi n err op) rest in
      (e, (step_xfers err op + m)%nat, step_events err op ++ t)
  end.

Definition script_status dsi n err ops : Z := fst (fst (script dsi n err ops)).
Definition script_xfers dsi n err ops : nat := snd (fst (script dsi n err ops)).
Definition script_events dsi n err ops : list event :=
  snd (script dsi n err ops).

(* ------------------------------------------------------------------ *)
(** ** Vocabulary of the properties *)

(** Write [i] (from 0) of a script started at bus position [n0], when
    all the writes before it were issued: its status. *)
Definition write_status (dsi : mipi_dsi_device) (n0 : nat)
    (ops : list multi_op) (i : nat) : option Z :=
  option_map (xfer dsi (n0 + i)) (nth_error (bus_cmds ops) i).

(** Write [k] (from 1) is the first write of the script to fail, with
    error [e]. *)
Definition first_failure (dsi : mipi_dsi_device) (n0 : nat)
    (ops : list multi_op) (k : nat) (e : Z) : Prop :=
  (1 <= k <= List.length (bus_cmds ops))%nat
  /\ (forall i, (i < k - 1)%nat ->
        exists r, write_status dsi n0 ops i = Some r /\ 0 <= r)
  /\ write_status dsi n0 ops (k - 1) = Some e
  /\ e < 0.

(** Every transaction the bus may be asked succeeds. *)
Definition bus_ok (dsi : mipi_dsi_device) : Prop :=
  forall n c, 0 <= xfer dsi n c.

(** The values written to one GPIO line, in order. *)
Fixpoint gpio_writes (l : gpio_line) (t : list event) : list Z :=
  match t with
  | [] => []
  | EGpio l' v :: rest =>
      if gpio_line_eqb l l' then v :: gpio_writes l rest
      else gpio_writes l rest
  | _ :: rest => gpio_writes l rest
  end.

Definition is_msleep_event (e : event) : bool :=
  match e with EMsleep _ => true | _ => false end.

(** [if (ms) msleep(ms);] as events. *)
Definition delay_events (ms : Z) : list event :=
  if c_true ms then [EMsleep ms] else [].

(** The module parameter written from outside (it is declared 0660). *)
Definition set_dbg_pattern (p : Z) (w : world) : world :=
  mkWorld (lvl_reset w) (lvl_vdd w) (lvl_vccio w) (lvl_dbg w)
          p (xfers w) (trace w).

(** One diagnostic pulse: dbg high, a 1 to 2 ms wait, dbg low. *)
Definition dbg_pulse_events : list event :=
  [EGpio gpio_dbg 1; EUsleepRange 1000 2000; EGpio gpio_dbg 0].

(** The events of the debug preamble for a value of the flag. *)
Definition dbg_events (dbg_pattern : Z) : list event :=
  dbg_pulse_events
  ++ (if c_true dbg_pattern
      then EUsleepRange 1000 2000 :: dbg_pulse_events else []).

(** What [jadard_prepare] does before it reaches the reset line. *)
Definition power_up_events (d : jadard_panel_desc) : list event :=
  [EGpio gpio_vccio 1; EGpio gpio_vdd 1]
  ++ delay_events (vcioo_to_lp11_delay_ms d).

Definition nop_events (d : jadard_panel_desc) : list event :=
  if lp11_before_reset d then [EDsi DcsNop] else [].

Definition reset_pulse_events : list event :=
  [EGpio gpio_reset 0; EMsleep 5;
   EGpio gpio_reset 1; EMsleep 10;
   EGpio gpio_reset 0; EMsleep 130].

(** The nop of a descriptor with [lp11_before_reset] fails. *)
Definition nop_fails (j : jadard) (w : world) : bool :=
  lp11_before_reset (desc j) && (xfer (dsi j) (xfers w) DcsNop <? 0).

(** The world in which the init routine is entered. *)
Definition init_entry_world (j : jadard) (w : world) : world :=
  mkWorld 0 1 1 (lvl_dbg w) (complex_dbg_pattern w)
          (xfers w + (if lp11_before_reset (desc j) then 1 else 0))
          (trace w ++ power_up_events (desc j) ++ nop_events (desc j)
                   ++ delay_events (lp11_to_reset_delay_ms (desc j))
                   ++ reset_pulse_events).

(** The world in which Prepare gives up when the nop fails. *)
Definition nop_failure_world (j : jadard) (w : world) : world :=
  mkWorld (lvl_reset w) 1 1 (lvl_dbg w) (complex_dbg_pattern w)
          (S (xfers w))
          (trace w ++ power_up_events (desc j) ++ [EDsi DcsNop]).

(** An init routine that leaves vdd, vccio and reset as it found them. *)
Definition keeps_power_lines (f : mipi_dsi_device -> M Z) : Prop :=
  forall dsi w,
    level gpio_vdd (final (f dsi) w) = level gpio_vdd w
    /\ level gpio_vccio (final (f dsi) w) = level gpio_vccio w
    /\ level gpio_reset (final (f dsi) w) = level gpio_reset w.

(* ------------------------------------------------------------------ *)
(** ** Buses, descriptors and instances used as examples *)

(** A bus that answers every transaction with the same status. *)
Definition const_bus (status : Z) : mipi_dsi_device :=
  mkDsi (fun _ _ => status) [] MIPI_DSI_FMT_RGB888 0.

(** A bus on which exactly the transaction at position [n] fails. *)
Definition failing_at (n : nat) (e : Z) : mipi_dsi_device :=
  mkDsi (fun i _ => if Nat.eqb i n then e else 0) [] MIPI_DSI_FMT_RGB888 0.

(** The shipped descriptor with [lp11_before_reset] set. *)
Definition lp11_desc : jadard_panel_desc :=
  mkDesc (mode shenzen_z34014_p30_365t_y1_desc) 2 MIPI_DSI_FMT_RGB888
         shenzen_z34014_p30_365t_y1_init_cmds true false 0 0 0 0 0.

(** The shipped descriptor with 20 ms between display off and enter
    sleep. *)
Definition delayed_sleep_desc : jadard_panel_desc :=
  mkDesc (mode shenzen_z34014_p30_365t_y1_desc) 2 MIPI_DSI_FMT_RGB888
         shenzen_z34014_p30_365t_y1_init_cmds false false 0 0 0 20 0.

(** The shipped panel behind a given bus. *)
Definition shipped_panel (bus : mipi_dsi_device) : jadard :=
  mkJadard bus shenzen_z34014_p30_365t_y1_desc
           DRM_MODE_PANEL_ORIENTATION_NORMAL.

Definition lp11_panel (bus : mipi_dsi_device) : jadard :=
  mkJadard bus lp11_desc DRM_MODE_PANEL_ORIENTATION_NORMAL.

Definition delayed_sleep_panel (bus : mipi_dsi_device) : jadard :=
  mkJadard bus delayed_sleep_desc DRM_MODE_PANEL_ORIENTATION_NORMAL.

(** A probe in which every lookup succeeds. *)
Definition probe_all_ok : probe_env :=
  mkProbeEnv true 0 0 0 0 0 DRM_MODE_PANEL_ORIENTATION_NORMAL 0 0.

(* ------------------------------------------------------------------ *)
(** ** Vocabulary of the further properties *)

(** Every write of a script started at bus position [n0] succeeds, each
    at the position it has when all the writes before it were issued. *)
Definition all_writes_ok (dsi : mipi_dsi_device) (n0 : nat)
    (ops : list multi_op) : Prop :=
  forall i c, nth_error (bus_cmds ops) i = Some c -> 0 <= xfer dsi (n0 + i) c.

(** The milliseconds spent in msleep by a log. *)
Fixpoint msleep_total (t : list event) : Z :=
  match t with
  | [] => 0
  | EMsleep ms :: rest => ms + msleep_total rest
  | _ :: rest => msleep_total rest
  end.

Definition sleeps_nonneg (t : list event) : bool :=
  forallb (fun e => match e with EMsleep ms => 0 <=? ms | _ => true end) t.

(** Every step of probe succeeds. *)
Definition probe_succeeds (env : probe_env) : bool :=
  kzalloc_ok env
  && (0 <=? get_reset env) && (0 <=? get_vdd env)
  && (0 <=? get_vccio env) && (0 <=? get_dbg env)
  && (0 <=? orientation_ret env)
  && (backlight_ret env =? 0)
  && (0 <=? attach_ret env).

(** The dsi device as probe configures it for a descriptor. *)
Definition configured (d : jadard_panel_desc) (dev : mipi_dsi_device)
  : mipi_dsi_device :=
  mkDsi (xfer dev)
        [MIPI_DSI_MODE_VIDEO; MIPI_DSI_MODE_VIDEO_BURST;
         MIPI_DSI_MODE_NO_EOT_PACKET; MIPI_DSI_MODE_LPM]
        (format d) (lanes d).

(** The hooks in the order the display stack calls them around a use of
    the panel. *)
Definition power_cycle (j : jadard) : M (Z * Z * Z) :=
  r1 <- jadard_prepare j ;;
  r2 <- jadard_disable j ;;
  r3 <- jadard_unprepare j ;;
  ret (r1, r2, r3).

(** A probe in which the backlight lookup answers a positive status. *)
Definition probe_backlight_positive : probe_env :=
  mkProbeEnv true 0 0 0 0 0 DRM_MODE_PANEL_ORIENTATION_NORMAL 7 0.

(** [n] successful calls of GetModes in a row on one connector. *)
Fixpoint get_modes_n (j : jadard) (n : nat) (c : drm_connector)
  : drm_connector :=
  match n with
  | O => c
  | S n' => snd (jadard_get_modes j true (get_modes_n j n' c))
  end.

(* ------------------------------------------------------------------ *)
(** * Properties *)

(** ** Monad and world bookkeeping *)

Lemma skipn_length_app {A : Type} (a b : list A) :
  skipn (List.length a) (a ++ b) = b.
Proof. induction a as [|x a IH]; simpl; auto. Qed.

Lemma advance_0_nil w : advance 0 [] w = w.
Proof.
  destruct w; unfold advance; simpl.
  now rewrite Nat.add_0_r, app_nil_r.
Qed.

Lemma advance_advance n1 t1 n2 t2 w :
  advance n2 t2 (advance n1 t1 w) = advance (n1 + n2) (t1 ++ t2) w.
Proof.
  unfold advance; simpl. now rewrite Nat.add_assoc, app_assoc.
Qed.

Lemma emitted_advance {A : Type} (m : M A) w n t :
  final m w = advance n t w -> emitted m w = t.
Proof.
  unfold emitted. intros ->. simpl. apply skipn_length_app.
Qed.

Lemma c_true_false_iff x : c_true x = false <-> x = 0.
Proof.
  unfold c_true. destruct (Z.eqb_spec x 0); simpl; split; congruence.
Qed.

Lemma c_true_neg x : x < 0 -> c_true x = true.
Proof.
  unfold c_true. intros H. destruct (Z.eqb_spec x 0); simpl; auto; lia.
Qed.

(** [if (ret) return ret; return 0;] returns [ret]. *)
Lemma return_if_nonzero (r : Z) (w : world) :
  (if c_true r then ret r else ret 0) w = (r, w).
Proof.
  destruct (c_true r) eqn:E; unfold ret; auto.
  apply c_true_false_iff in E. now subst.
Qed.

Lemma dsi_cmds_of_app t1 t2 :
  dsi_cmds_of (t1 ++ t2) = dsi_cmds_of t1 ++ dsi_cmds_of t2.
Proof.
  induction t1 as [|e t1 IH]; simpl; auto.
  destruct e; simpl; rewrite ?IH; reflexivity.
Qed.

Lemma gpio_writes_app l t1 t2 :
  gpio_writes l (t1 ++ t2) = gpio_writes l t1 ++ gpio_writes l t2.
Proof.
  induction t1 as [|e t1 IH]; simpl; auto.
  destruct e; simpl; auto. destruct (gpio_line_eqb l l0); simpl; congruence.
Qed.

(** Runs the primitives of a hook on a world given by its fields. *)
Ltac run_hook :=
  cbv [bind when gpiod_set_value msleep usleep_range dsi_transfer
       read_complex_dbg_pattern ret log set_level count_xfer gpio_line_eqb
       lvl_reset lvl_vdd lvl_vccio lvl_dbg complex_dbg_pattern xfers trace];
  repeat rewrite <- app_assoc; cbn [app].

(** ** Scripts and runs *)

Lemma run_op_spec op ctx w :
  run_op op ctx w =
  (mkCtx (ctx_dsi ctx) (step_status (ctx_dsi ctx) (xfers w) (accum_err ctx) op),
   advance (step_xfers (accum_err ctx) op) (step_events (accum_err ctx) op) w).
Proof.
  destruct ctx as [d err].
  unfold step_status, step_xfers, step_events.
  destruct op; simpl;
    unfold mipi_dsi_dcs_write_seq_multi, mipi_dsi_dcs_write_buffer_multi,
      mipi_dsi_dcs_set_tear_on_multi, mipi_dsi_dcs_exit_sleep_mode_multi,
      mipi_dsi_dcs_set_display_on_multi, mipi_dsi_dcs_set_display_off_multi,
      mipi_dsi_dcs_enter_sleep_mode_multi, mipi_dsi_msleep, multi_transfer;
    simpl; destruct (c_true err) eqn:E;
    try (unfold ret; now rewrite advance_0_nil);
    unfold bind, dsi_transfer, msleep, ret; simpl;
    try match goal with
        | |- context [xfer d ?n ?c <? 0] => destruct (xfer d n c <? 0)
        end;
    unfold advance, count_xfer, log; simpl;
    rewrite ?Nat.add_1_r, ?Nat.add_0_r; reflexivity.
Qed.

Lemma run_ops_spec ops : forall ctx w,
  run_ops ops ctx w =
  (mkCtx (ctx_dsi ctx)
         (script_status (ctx_dsi ctx) (xfers w) (accum_err ctx) ops),
   advance (script_xfers (ctx_dsi ctx) (xfers w) (accum_err ctx) ops)
           (script_events (ctx_dsi ctx) (xfers w) (accum_err ctx) ops) w).
Proof.
  unfold script_status, script_xfers, script_events.
  induction ops as [|op rest IH]; intros ctx w.
  - simpl. unfold ret. rewrite advance_0_nil. now destruct ctx.
  - simpl. unfold bind. rewrite run_op_spec, IH. simpl.
    destruct (script _ _ _ rest) as [[e m] t]. simpl.
    now rewrite advance_advance.
Qed.

Lemma run_ops_emitted ops ctx w :
  emitted (run_ops ops ctx) w
  = script_events (ctx_dsi ctx) (xfers w) (accum_err ctx) ops.
Proof.
  apply (emitted_advance _ _ _ _ (f_equal snd (run_ops_spec ops ctx w))).
Qed.

Lemma run_ops_k_bind {A : Type} ops : forall ctx (k : _ -> M A) w,
  run_ops_k ops ctx k w = bind (run_ops ops ctx) k w.
Proof.
  induction ops as [|op rest IH]; intros ctx k w; simpl.
  - reflexivity.
  - unfold bind at 1 2 3. destruct (run_op op ctx w) as [c w1].
    rewrite IH. reflexivity.
Qed.

(** [jadard_disable] is the run of [disable_ops]. *)
Lemma jadard_disable_as_ops j w :
  jadard_disable j w =
  (ctx <- run_ops (disable_ops (desc j)) (mkCtx (dsi j) 0) ;;
   ret (accum_err ctx)) w.
Proof.
  rewrite <- run_ops_k_bind.
  unfold jadard_disable, disable_ops, opt_sleep.
  destruct (c_true (backlight_off_to_display_off_delay_ms (desc j)));
    destruct (c_true (display_off_to_enter_sleep_delay_ms (desc j)));
    destruct (c_true (enter_sleep_to_reset_down_delay_ms (desc j)));
    reflexivity.
Qed.

(** The init routine is the debug preamble followed by the run of
    [init_ops]. *)
Lemma init_cmds_as_ops bus :
  shenzen_z34014_p30_365t_y1_init_cmds bus =
  (gpiod_set_value gpio_dbg 1 ;;
   usleep_range 1000 2000 ;;
   gpiod_set_value gpio_dbg 0 ;;
   dbg_pattern <- read_complex_dbg_pattern ;;
   when (c_true dbg_pattern)
        (usleep_range 1000 2000 ;;
         gpiod_set_value gpio_dbg 1 ;;
         usleep_range 1000 2000 ;;
         gpiod_set_value gpio_dbg 0) ;;
   run_ops_k init_ops (mkCtx bus 0) (fun ctx => ret (accum_err ctx))).
Proof. reflexivity. Qed.

Section Script.

Variable bus : mipi_dsi_device.

Lemma script_after_error ops : forall n err,
  c_true err = true -> script bus n err ops = (err, 0%nat, []).
Proof.
  induction ops as [|op rest IH]; intros n err E; simpl; auto.
  unfold step_xfers, step_status, step_events. rewrite E.
  rewrite IH by assumption. reflexivity.
Qed.

Lemma script_sleep n ms rest :
  script bus n 0 (OpMsleep ms :: rest) =
  (let '(e, m, t) := script bus n 0 rest in (e, m, EMsleep ms :: t)).
Proof.
  cbn [script step_xfers step_status step_events op_cmd op_event].
  change (c_true 0) with false. cbv iota. now rewrite Nat.add_0_r.
Qed.

Lemma script_cmd n op c rest :
  op_cmd op = Some c ->
  script bus n 0 (op :: rest) =
  if xfer bus n c <? 0 then (xfer bus n c, 1%nat, [EDsi c])
  else let '(e, m, t) := script bus (S n) 0 rest in (e, S m, EDsi c :: t).
Proof.
  intros Ec.
  assert (Ev : op_event op = EDsi c)
    by (destruct op; simpl in *; congruence).
  cbn [script]. unfold step_xfers, step_status, step_events.
  rewrite Ec, Ev. change (c_true 0) with false. cbv iota.
  rewrite Nat.add_1_r.
  destruct (Z.ltb_spec (xfer bus n c) 0) as [Hlt|Hge].
  - now rewrite script_after_error by now apply c_true_neg.
  - reflexivity.
Qed.

(** On a bus that accepts everything, every call of a script runs. *)
Lemma script_bus_ok ops : bus_ok bus -> forall n,
  script bus n 0 ops = (0, List.length (bus_cmds ops), map op_event ops).
Proof.
  intros OK. induction ops as [|op rest IH]; intros n; simpl; auto.
  unfold step_status, step_xfers, step_events. simpl.
  destruct (op_cmd op) as [c|] eqn:Ec.
  - destruct (Z.ltb_spec (xfer bus n c) 0) as [Hlt|_].
    + specialize (OK n c). lia.
    + rewrite IH. reflexivity.
  - rewrite IH. reflexivity.
Qed.

(** A script only sleeps and talks to the bus: it writes no GPIO. *)
Lemma gpio_writes_script l ops : forall n err,
  gpio_writes l (script_events bus n err ops) = [].
Proof.
  unfold script_events.
  induction ops as [|op rest IH]; intros n err; simpl; auto.
  specialize (IH (n + step_xfers err op)%nat (step_status bus n err op)).
  destruct (script bus _ _ rest) as [[e m] t]. simpl in *.
  rewrite gpio_writes_app, IH. unfold step_events.
  destruct (c_true err); auto. destruct op; reflexivity.
Qed.

Lemma first_failure_sleep n op rest k e :
  op_cmd op = None ->
  first_failure bus n (op :: rest) k e -> first_failure bus n rest k e.
Proof.
  unfold first_failure, write_status. simpl. intros ->. auto.
Qed.

Lemma first_failure_head n op c rest e :
  op_cmd op = Some c ->
  first_failure bus n (op :: rest) 1 e -> xfer bus n c = e /\ e < 0.
Proof.
  unfold first_failure, write_status. simpl. intros ->.
  intros (_ & _ & H & He). simpl in H. rewrite Nat.add_0_r in H.
  split; congruence.
Qed.

Lemma first_failure_tail n op c rest k e :
  op_cmd op = Some c ->
  first_failure bus n (op :: rest) (S (S k)) e ->
  0 <= xfer bus n c /\ first_failure bus (S n) rest (S k) e.
Proof.
  unfold first_failure, write_status. simpl. intros ->. simpl.
  intros (Hk & Hbefore & Hat & He). split.
  - destruct (Hbefore 0%nat) as (r & Hr & Hr0); [lia|].
    simpl in Hr. rewrite Nat.add_0_r in Hr. congruence.
  - split; [lia|]. split; [|split; [|assumption]].
    + intros i Hi. destruct (Hbefore (S i)) as (r & Hr & Hr0); [lia|].
      exists r. split; auto. simpl in Hr.
      now rewrite Nat.add_succ_r in Hr.
    + rewrite Nat.sub_0_r in *. simpl in Hat.
      now rewrite Nat.add_succ_r in Hat.
Qed.

(** When write k is the first to fail, the status of the script is
    that write's error and exactly the first k writes are issued. *)
Lemma script_first_failure ops : forall n k e,
  first_failure bus n ops k e ->
  script_status bus n 0 ops = e
  /\ script_xfers bus n 0 ops = k
  /\ dsi_cmds_of (script_events bus n 0 ops) = firstn k (bus_cmds ops).
Proof.
  unfold script_status, script_xfers, script_events.
  induction ops as [|op rest IH]; intros n k e FF.
  - destruct FF as (Hk & _). simpl in Hk. lia.
  - simpl. unfold step_status, step_xfers, step_events. simpl.
    destruct (op_cmd op) as [c|] eqn:Ec.
    + destruct k as [|[|k]].
      * destruct FF as (Hk & _). lia.
      * destruct (first_failure_head _ _ _ _ _ Ec FF) as (Hx & He).
        rewrite Hx. destruct (Z.ltb_spec e 0); [|lia].
        rewrite script_after_error by now apply c_true_neg.
        simpl. repeat split; auto.
        destruct op; simpl in *; try discriminate; congruence.
      * destruct (first_failure_tail _ _ _ _ _ _ Ec FF) as (Hx & FF').
        destruct (Z.ltb_spec (xfer bus n c) 0); [lia|].
        rewrite Nat.add_1_r.
        destruct (IH (S n) (S k) e FF') as (H1 & H2 & H3).
        destruct (script bus (S n) 0 rest) as [[e' m] t]. simpl in *.
        repeat split; auto.
        destruct op; simpl in *; try discriminate;
          injection Ec as <-; now rewrite H3.
    + rewrite Nat.add_0_r.
      destruct (IH n k e (first_failure_sleep _ _ _ _ _ Ec FF))
        as (H1 & H2 & H3).
      destruct (script bus n 0 rest) as [[e' m] t]. simpl in *.
      repeat split; auto.
      destruct op; simpl in *; try discriminate. assumption.
Qed.

End Script.

(** ** The hooks, run *)

Lemma dbg_preamble_then {A : Type} (k : M A) w :
  (gpiod_set_value gpio_dbg 1 ;;
   usleep_range 1000 2000 ;;
   gpiod_set_value gpio_dbg 0 ;;
   dbg_pattern <- read_complex_dbg_pattern ;;
   when (c_true dbg_pattern)
        (usleep_range 1000 2000 ;;
         gpiod_set_value gpio_dbg 1 ;;
         usleep_range 1000 2000 ;;
         gpiod_set_value gpio_dbg 0) ;;
   k) w =
  k (mkWorld (lvl_reset w) (lvl_vdd w) (lvl_vccio w) 0
             (complex_dbg_pattern w) (xfers w)
             (trace w ++ dbg_events (complex_dbg_pattern w))).
Proof.
  destruct w as [r0 vd vc d p x t].
  unfold dbg_events, dbg_pulse_events. run_hook.
  destruct (c_true p); run_hook; reflexivity.
Qed.

Lemma dbg_preamble_bind {A : Type} (k : M A) w :
  (dbg_preamble ;; k) w =
  k (mkWorld (lvl_reset w) (lvl_vdd w) (lvl_vccio w) 0
             (complex_dbg_pattern w) (xfers w)
             (trace w ++ dbg_events (complex_dbg_pattern w))).
Proof.
  destruct w as [r0 vd vc d p x t].
  unfold dbg_preamble, dbg_events, dbg_pulse_events. run_hook.
  destruct (c_true p); run_hook; reflexivity.
Qed.

(** The init routine, run: its status, and the world it leaves. *)
Lemma init_cmds_spec bus w :
  shenzen_z34014_p30_365t_y1_init_cmds bus w =
  (script_status bus (xfers w) 0 init_ops,
   mkWorld (lvl_reset w) (lvl_vdd w) (lvl_vccio w) 0
           (complex_dbg_pattern w)
           (xfers w + script_xfers bus (xfers w) 0 init_ops)
           (trace w ++ dbg_events (complex_dbg_pattern w)
                   ++ script_events bus (xfers w) 0 init_ops)).
Proof.
  rewrite init_cmds_as_ops, dbg_preamble_then, run_ops_k_bind.
  unfold bind. rewrite run_ops_spec. unfold ret, advance. simpl.
  now rewrite <- app_assoc.
Qed.

Lemma init_cmds_keeps_power_lines :
  keeps_power_lines shenzen_z34014_p30_365t_y1_init_cmds.
Proof.
  intros bus w. unfold final. rewrite init_cmds_spec. simpl. auto.
Qed.

Lemma jadard_disable_spec j w :
  jadard_disable j w =
  (script_status (dsi j) (xfers w) 0 (disable_ops (desc j)),
   advance (script_xfers (dsi j) (xfers w) 0 (disable_ops (desc j)))
           (script_events (dsi j) (xfers w) 0 (disable_ops (desc j))) w).
Proof.
  rewrite jadard_disable_as_ops. unfold bind.
  rewrite run_ops_spec. reflexivity.
Qed.

(** Disable, run: the status it returns and the events it produces. *)
Lemma jadard_disable_run j w :
  let d := desc j in
  let off := xfer (dsi j) (xfers w) DcsSetDisplayOff in
  let slp := xfer (dsi j) (S (xfers w)) DcsEnterSleepMode in
  result (jadard_disable j) w
  = (if off <? 0 then off else if slp <? 0 then slp else 0)
  /\ emitted (jadard_disable j) w
     = delay_events (backlight_off_to_display_off_delay_ms d)
       ++ [EDsi DcsSetDisplayOff]
       ++ (if off <? 0 then []
           else delay_events (display_off_to_enter_sleep_delay_ms d)
                ++ [EDsi DcsEnterSleepMode]
                ++ (if slp <? 0 then []
                    else delay_events (enter_sleep_to_reset_down_delay_ms d))).
Proof.
  intros d off slp. unfold result.
  rewrite (emitted_advance _ _ _ _
             (f_equal snd (jadard_disable_spec j w))).
  rewrite jadard_disable_spec. cbn [fst].
  unfold script_status, script_events, disable_ops, opt_sleep, delay_events.
  fold d.
  destruct (c_true (backlight_off_to_display_off_delay_ms d));
    destruct (c_true (display_off_to_enter_sleep_delay_ms d));
    destruct (c_true (enter_sleep_to_reset_down_delay_ms d));
    cbn [app];
    rewrite ?script_sleep,
      (script_cmd (dsi j) (xfers w) OpSetDisplayOff _ _ eq_refl);
    fold off; destruct (off <? 0); cbn [fst snd app];
    try (split; reflexivity);
    rewrite ?script_sleep,
      (script_cmd (dsi j) (S (xfers w)) OpEnterSleepMode _ _ eq_refl);
    fold slp; destruct (slp <? 0); cbn [fst snd app];
    try (split; reflexivity);
    rewrite ?script_sleep; cbn [script fst snd app]; split; reflexivity.
Qed.

Lemma jadard_prepare_reset_and_init_spec j w :
  jadard_prepare_reset_and_init j w =
  init (desc j) (dsi j)
       (mkWorld 0 (lvl_vdd w) (lvl_vccio w) (lvl_dbg w)
                (complex_dbg_pattern w) (xfers w)
                (trace w ++ delay_events (lp11_to_reset_delay_ms (desc j))
                         ++ reset_pulse_events)).
Proof.
  destruct w as [r0 vd vc d p x t].
  unfold jadard_prepare_reset_and_init, delay_events, reset_pulse_events.
  destruct (c_true (lp11_to_reset_delay_ms (desc j))); run_hook;
    match goal with
    | |- (let (_, _) := ?x in _) = _ => destruct x as [r w']
    end; exact (return_if_nonzero r w').
Qed.

(** Prepare, run: either it stops at the failed nop, or it is the init
    routine entered in [init_entry_world]. *)
Lemma jadard_prepare_spec j w :
  jadard_prepare j w =
  if nop_fails j w
  then (xfer (dsi j) (xfers w) DcsNop, nop_failure_world j w)
  else init (desc j) (dsi j) (init_entry_world j w).
Proof.
  destruct w as [r0 vd vc d p x t].
  unfold jadard_prepare, nop_fails, init_entry_world, nop_failure_world,
    power_up_events, nop_events, delay_events, mipi_dsi_dcs_nop.
  destruct (lp11_before_reset (desc j)); cbn [andb];
    destruct (c_true (vcioo_to_lp11_delay_ms (desc j))); run_hook.
  all: try (destruct (Z.ltb_spec (xfer (dsi j) x DcsNop) 0) as [Hlt|Hge];
            [ rewrite (c_true_neg _ Hlt); reflexivity
            | cbn [c_true Z.eqb negb] ]).
  all: rewrite jadard_prepare_reset_and_init_spec; run_hook;
    rewrite ?Nat.add_1_r, ?Nat.add_0_r; reflexivity.
Qed.

Lemma jadard_prepare_shipped bus o w :
  jadard_prepare (mkJadard bus shenzen_z34014_p30_365t_y1_desc o) w =
  shenzen_z34014_p30_365t_y1_init_cmds bus
    (mkWorld 0 1 1 (lvl_dbg w) (complex_dbg_pattern w) (xfers w)
             (trace w ++ [EGpio gpio_vccio 1; EGpio gpio_vdd 1]
                      ++ reset_pulse_events)).
Proof.
  rewrite jadard_prepare_spec. unfold nop_fails, init_entry_world.
  cbn [desc dsi lp11_before_reset shenzen_z34014_p30_365t_y1_desc andb init
       power_up_events nop_events delay_events vcioo_to_lp11_delay_ms
       lp11_to_reset_delay_ms].
  change (c_true 0) with false. cbn [app]. now rewrite Nat.add_0_r.
Qed.

(** The events of Prepare on the shipped descriptor, for a value [p] of
    the debug flag; the register sequence is the run of [init_ops]. *)
Lemma jadard_prepare_shipped_events bus o w p :
  emitted (jadard_prepare (mkJadard bus shenzen_z34014_p30_365t_y1_desc o))
          (set_dbg_pattern p w)
  = [EGpio gpio_vccio 1; EGpio gpio_vdd 1] ++ reset_pulse_events
    ++ dbg_events p
    ++ emitted (run_ops init_ops (mkCtx bus 0)) w.
Proof.
  unfold emitted at 1. unfold final.
  rewrite jadard_prepare_shipped, init_cmds_spec, run_ops_emitted.
  cbn [snd trace xfers complex_dbg_pattern set_dbg_pattern ctx_dsi accum_err].
  rewrite <- !app_assoc, skipn_length_app. reflexivity.
Qed.

Lemma jadard_unprepare_spec j w :
  jadard_unprepare j w =
  (0,
   mkWorld (if reset_before_power_off_vcioo (desc j) then 1 else 0) 0 0
           (lvl_dbg w) (complex_dbg_pattern w) (xfers w)
           (trace w
            ++ [EGpio gpio_reset 0; EMsleep 120]
            ++ (if reset_before_power_off_vcioo (desc j)
                then [EGpio gpio_reset 1; EUsleepRange 1000 2000] else [])
            ++ [EGpio gpio_vdd 0; EGpio gpio_vccio 0])).
Proof.
  destruct w as [r0 vd vc d p x t]. unfold jadard_unprepare.
  destruct (reset_before_power_off_vcioo (desc j)); run_hook; reflexivity.
Qed.

(* ------------------------------------------------------------------ *)
(** ** Prepare *)

(** C1 (as amended).  For every descriptor, instance and bus, Prepare
    first writes 1 to vccio and to vdd, and nothing it does before the
    reset pulse writes the reset line.  Unless the descriptor asks for
    the nop transaction and that transaction fails (then Prepare returns
    its error, the reset line never written, the init routine never
    called), Prepare then drives reset 0, sleeps 5 ms, drives it 1,
    sleeps 10 ms, drives it 0, sleeps 130 ms, and only then enters the
    init routine, whose run is the rest of Prepare. *)
Theorem jadard_prepare_power_before_reset_pulse (j : jadard) (w : world) :
  (exists rest, power_up_events (desc j)
                = EGpio gpio_vccio 1 :: EGpio gpio_vdd 1 :: rest)
  /\ gpio_writes gpio_reset
       (power_up_events (desc j) ++ nop_events (desc j)
        ++ delay_events (lp11_to_reset_delay_ms (desc j))) = []
  /\ (if nop_fails j w
      then jadard_prepare j w
           = (xfer (dsi j) (xfers w) DcsNop, nop_failure_world j w)
           /\ trace (nop_failure_world j w)
              = trace w ++ power_up_events (desc j) ++ [EDsi DcsNop]
      else jadard_prepare j w
           = init (desc j) (dsi j) (init_entry_world j w)
           /\ trace (init_entry_world j w)
              = trace w
                ++ (power_up_events (desc j) ++ nop_events (desc j)
                    ++ delay_events (lp11_to_reset_delay_ms (desc j)))
                ++ [EGpio gpio_reset 0; EMsleep 5;
                    EGpio gpio_reset 1; EMsleep 10;
                    EGpio gpio_reset 0; EMsleep 130]).
Proof.
  split; [|split].
  - unfold power_up_events. simpl. eauto.
  - unfold power_up_events, nop_events, delay_events.
    destruct (c_true (vcioo_to_lp11_delay_ms (desc j)));
      destruct (lp11_before_reset (desc j));
      destruct (c_true (lp11_to_reset_delay_ms (desc j))); reflexivity.
  - rewrite jadard_prepare_spec.
    destruct (nop_fails j w); split; try reflexivity.
    unfold init_entry_world, reset_pulse_events. simpl.
    now repeat rewrite <- app_assoc.
Qed.

(** C1, counterexample.  With [lp11_before_reset] set and a bus that
    times out (-110), Prepare raises both power lines, sends the nop, and
    returns -110: the reset line is never driven, so the low, high, low
    sequence of the claim does not happen for this descriptor. *)
Lemma jadard_prepare_nop_failure_skips_reset :
  result (jadard_prepare (lp11_panel (const_bus (-110)))) (attached_world 0)
  = -110
  /\ emitted (jadard_prepare (lp11_panel (const_bus (-110))))
             (attached_world 0)
     = [EGpio gpio_vccio 1; EGpio gpio_vdd 1; EDsi DcsNop]
  /\ gpio_writes gpio_reset
       (emitted (jadard_prepare (lp11_panel (const_bus (-110))))
                (attached_world 0))
     <> [0; 1; 0].
Proof.
  vm_compute. repeat split; discriminate.
Qed.

(** C9.  When the init routine, entered by Prepare, returns an error,
    Prepare returns that error and the world it leaves is the one the
    init routine left: no GPIO write, no sleep and no bus transaction
    follows.  For an init routine that does not itself write the power
    and reset lines (the shipped one does not), vdd and vccio are still
    1 and reset is still 0, their values at the entry of the routine. *)
Theorem jadard_prepare_init_error_no_rollback
    (j : jadard) (w : world) (r : Z) (w' : world) :
  nop_fails j w = false ->
  init (desc j) (dsi j) (init_entry_world j w) = (r, w') ->
  r <> 0 ->
  jadard_prepare j w = (r, w')
  /\ (keeps_power_lines (init (desc j)) ->
      level gpio_vdd w' = level gpio_vdd (init_entry_world j w)
      /\ level gpio_vccio w' = level gpio_vccio (init_entry_world j w)
      /\ level gpio_reset w' = level gpio_reset (init_entry_world j w)
      /\ level gpio_vdd w' = 1
      /\ level gpio_vccio w' = 1
      /\ level gpio_reset w' = 0).
Proof.
  intros Hnop Hinit Hr. split.
  - rewrite jadard_prepare_spec, Hnop. exact Hinit.
  - intros K. destruct (K (dsi j) (init_entry_world j w)) as (H1 & H2 & H3).
    unfold final in *. rewrite Hinit in *. simpl in *. auto 10.
Qed.

Lemma jadard_prepare_init_error_no_rollback_witness :
  jadard_prepare (shipped_panel (const_bus (-5))) (attached_world 0)
  = (-5, final (shenzen_z34014_p30_365t_y1_init_cmds (const_bus (-5)))
               (init_entry_world (shipped_panel (const_bus (-5)))
                                 (attached_world 0)))
  /\ level gpio_vdd
       (final (jadard_prepare (shipped_panel (const_bus (-5))))
              (attached_world 0)) = 1.
Proof.
  destruct (jadard_prepare_init_error_no_rollback
              (shipped_panel (const_bus (-5))) (attached_world 0) (-5)
              (final (shenzen_z34014_p30_365t_y1_init_cmds (const_bus (-5)))
                     (init_entry_world (shipped_panel (const_bus (-5)))
                                       (attached_world 0))))
    as (H & K).
  - reflexivity.
  - vm_compute. reflexivity.
  - discriminate.
  - destruct (K init_cmds_keeps_power_lines) as (_ & _ & _ & V1 & _).
    split; [exact H|]. unfold final at 1. rewrite H. exact V1.
Defined.

(* ------------------------------------------------------------------ *)
(** ** Unprepare *)

(** C8.  Unprepare returns 0 for every instance, descriptor and world.
    It drives reset to 0, sleeps 120 ms, then, exactly when the
    descriptor sets [reset_before_power_off_vcioo], drives reset to 1 and
    waits with usleep_range(1000, 2000); it ends by driving vdd and then
    vccio to 0.  Nothing is sent on the bus. *)
Theorem jadard_unprepare_always_succeeds (j : jadard) (w : world) :
  let extra := reset_before_power_off_vcioo (desc j) in
  result (jadard_unprepare j) w = 0
  /\ emitted (jadard_unprepare j) w
     = [EGpio gpio_reset 0; EMsleep 120]
       ++ (if extra
           then [EGpio gpio_reset 1; EUsleepRange 1000 2000] else [])
       ++ [EGpio gpio_vdd 0; EGpio gpio_vccio 0]
  /\ level gpio_vdd (final (jadard_unprepare j) w) = 0
  /\ level gpio_vccio (final (jadard_unprepare j) w) = 0
  /\ level gpio_reset (final (jadard_unprepare j) w)
     = (if extra then 1 else 0)
  /\ xfers (final (jadard_unprepare j) w) = xfers w.
Proof.
  intros extra. unfold result, emitted, final.
  rewrite jadard_unprepare_spec. cbn [fst snd trace level lvl_vdd lvl_vccio
                                      lvl_reset xfers].
  rewrite skipn_length_app. repeat split.
Qed.

(* ------------------------------------------------------------------ *)
(** ** Disable *)

(** C4 (as amended).  For every descriptor, instance and bus, Disable
    runs, in this order: the first delay, display off, the second delay,
    enter sleep, the third delay.  A delay is inserted exactly when its
    descriptor value is non-zero and no bus error has been recorded
    before it; enter sleep is issued only after display off, and only
    when display off succeeded.  The status returned is the accumulated
    one: the error of display off, else the error of enter sleep, else
    0. *)
Theorem jadard_disable_sequence (j : jadard) (w : world) :
  let d := desc j in
  let off := xfer (dsi j) (xfers w) DcsSetDisplayOff in
  let slp := xfer (dsi j) (S (xfers w)) DcsEnterSleepMode in
  result (jadard_disable j) w
  = (if off <? 0 then off else if slp <? 0 then slp else 0)
  /\ emitted (jadard_disable j) w
     = delay_events (backlight_off_to_display_off_delay_ms d)
       ++ [EDsi DcsSetDisplayOff]
       ++ (if off <? 0 then []
           else delay_events (display_off_to_enter_sleep_delay_ms d)
                ++ [EDsi DcsEnterSleepMode]
                ++ (if slp <? 0 then []
                    else delay_events (enter_sleep_to_reset_down_delay_ms d)))
  /\ dsi_cmds_of (emitted (jadard_disable j) w)
     = DcsSetDisplayOff :: (if off <? 0 then [] else [DcsEnterSleepMode])
  /\ delay_events 0 = [].
Proof.
  intros d off slp.
  destruct (jadard_disable_run j w) as (R & E). fold d off slp in R, E.
  split; [exact R|]. split; [exact E|]. split; [|reflexivity].
  rewrite E. unfold delay_events.
  destruct (c_true (backlight_off_to_display_off_delay_ms d));
    destruct (c_true (display_off_to_enter_sleep_delay_ms d));
    destruct (c_true (enter_sleep_to_reset_down_delay_ms d));
    destruct (off <? 0); destruct (slp <? 0); reflexivity.
Qed.

(** C4, counterexample.  The descriptor asks for 20 ms between display
    off and enter sleep, and display off fails with -5: Disable issues
    display off and nothing else, so the non-zero delay is not inserted
    (and enter sleep is not sent). *)
Lemma jadard_disable_delay_skipped_after_error :
  c_true (display_off_to_enter_sleep_delay_ms delayed_sleep_desc) = true
  /\ emitted (jadard_disable (delayed_sleep_panel (const_bus (-5))))
             (attached_world 0)
     = [EDsi DcsSetDisplayOff]
  /\ ~ In (EMsleep 20)
          (emitted (jadard_disable (delayed_sleep_panel (const_bus (-5))))
                   (attached_world 0))
  /\ result (jadard_disable (delayed_sleep_panel (const_bus (-5))))
            (attached_world 0) = -5.
Proof.
  vm_compute. repeat split; try reflexivity.
  intros [H|[]]. discriminate.
Qed.

(* ------------------------------------------------------------------ *)
(** ** The accumulated-error context *)

(** C2 (as amended).  Take any run of calls on one accumulated-error
    context that starts without error, and let write k (1 <= k <= N) be
    the first of its N bus writes to fail, with error e.  Then the
    status at the end is e (not success, not a later error), and the
    bus saw exactly writes 1..k: the writes after k are not issued.
    This holds in particular for Disable and for the init routine, whose
    returned status is then e. *)
Theorem accumulated_error_first_failure
    (bus : mipi_dsi_device) (ops : list multi_op) (w : world)
    (k : nat) (e : Z) :
  first_failure bus (xfers w) ops k e ->
  accum_err (result (run_ops ops (mkCtx bus 0)) w) = e
  /\ dsi_cmds_of (emitted (run_ops ops (mkCtx bus 0)) w)
     = firstn k (bus_cmds ops)
  /\ xfers (final (run_ops ops (mkCtx bus 0)) w) = (xfers w + k)%nat
  /\ (forall j, dsi j = bus -> disable_ops (desc j) = ops ->
        result (jadard_disable j) w = e
        /\ dsi_cmds_of (emitted (jadard_disable j) w)
           = firstn k (bus_cmds ops))
  /\ (init_ops = ops ->
        result (shenzen_z34014_p30_365t_y1_init_cmds bus) w = e
        /\ dsi_cmds_of (emitted (shenzen_z34014_p30_365t_y1_init_cmds bus) w)
           = firstn k (bus_cmds ops)).
Proof.
  intros FF.
  destruct (script_first_failure bus ops _ _ _ FF) as (Hs & Hx & Hc).
  assert (Hrun := run_ops_spec ops (mkCtx bus 0) w).
  cbn [ctx_dsi accum_err] in Hrun.
  split; [|split; [|split; [|split]]].
  - unfold result. rewrite Hrun. exact Hs.
  - rewrite run_ops_emitted. exact Hc.
  - unfold final. rewrite Hrun. cbn [snd advance xfers]. now rewrite Hx.
  - intros j Hdsi Hops. split.
    + unfold result. rewrite jadard_disable_spec. cbn [fst].
      rewrite Hdsi, Hops. exact Hs.
    + rewrite (emitted_advance _ _ _ _
                 (f_equal snd (jadard_disable_spec j w))).
      rewrite Hdsi, Hops. exact Hc.
  - intros Hops. split.
    + unfold result. rewrite init_cmds_spec. cbn [fst].
      rewrite Hops. exact Hs.
    + unfold emitted, final. rewrite init_cmds_spec. cbn [snd trace].
      rewrite skipn_length_app, dsi_cmds_of_app, Hops, Hc.
      unfold dbg_events, dbg_pulse_events.
      destruct (c_true (complex_dbg_pattern w)); reflexivity.
Qed.

Lemma accumulated_error_first_failure_witness :
  first_failure (failing_at 1 (-110)) 0
    (disable_ops shenzen_z34014_p30_365t_y1_desc) 2 (-110)
  /\ result (jadard_disable (shipped_panel (failing_at 1 (-110))))
            (attached_world 0) = -110
  /\ dsi_cmds_of
       (emitted (jadard_disable (shipped_panel (failing_at 1 (-110))))
                (attached_world 0))
     = [DcsSetDisplayOff; DcsEnterSleepMode].
Proof.
  assert (FF : first_failure (failing_at 1 (-110)) 0
                 (disable_ops shenzen_z34014_p30_365t_y1_desc) 2 (-110)).
  { split; [|split; [|split]].
    - simpl. lia.
    - intros i Hi. assert (i = 0%nat) as -> by lia.
      exists 0. split; [reflexivity | lia].
    - reflexivity.
    - lia. }
  split; [exact FF|].
  destruct (accumulated_error_first_failure (failing_at 1 (-110))
              (disable_ops shenzen_z34014_p30_365t_y1_desc)
              (attached_world 0) 2 (-110) FF) as (_ & _ & _ & D & _).
  exact (D (shipped_panel (failing_at 1 (-110))) eq_refl eq_refl).
Defined.

(** C2, counterexample.  On a bus where every transaction fails with -5,
    the first of Disable's two writes (display off) is the first to
    fail; the bus then sees that write only, not both writes. *)
Lemma accumulated_error_later_writes_not_issued :
  bus_cmds (disable_ops shenzen_z34014_p30_365t_y1_desc)
  = [DcsSetDisplayOff; DcsEnterSleepMode]
  /\ write_status (const_bus (-5)) 0
       (disable_ops shenzen_z34014_p30_365t_y1_desc) 0 = Some (-5)
  /\ dsi_cmds_of (emitted (jadard_disable (shipped_panel (const_bus (-5))))
                          (attached_world 0))
     = [DcsSetDisplayOff]
  /\ dsi_cmds_of (emitted (jadard_disable (shipped_panel (const_bus (-5))))
                          (attached_world 0))
     <> bus_cmds (disable_ops shenzen_z34014_p30_365t_y1_desc).
Proof.
  vm_compute. repeat split; discriminate.
Qed.

(* ------------------------------------------------------------------ *)
(** ** The init routine *)

(** C3 (as amended).  Prepare on an instance of the shipped descriptor,
    from any world (a freshly attached one included) in which the flag
    [complex_dbg_pattern] has the value p: after the power-up and the
    reset pulse, the init routine always issues one pulse on dbg (1,
    usleep_range(1000, 2000), 0); when p is non-zero it waits 1 to 2 ms
    and issues one more such pulse; the register sequence that follows
    is the same in both cases and writes no GPIO.  So dbg sees one pulse
    when the flag is 0 and two when it is 1. *)
Theorem jadard_prepare_dbg_pulses
    (bus : mipi_dsi_device) (o : drm_panel_orientation) (w : world) (p : Z) :
  let j := mkJadard bus shenzen_z34014_p30_365t_y1_desc o in
  let regs := emitted (run_ops init_ops (mkCtx bus 0)) w in
  let pulse :=
    [EGpio gpio_dbg 1; EUsleepRange 1000 2000; EGpio gpio_dbg 0] in
  let before :=
    [EGpio gpio_vccio 1; EGpio gpio_vdd 1;
     EGpio gpio_reset 0; EMsleep 5;
     EGpio gpio_reset 1; EMsleep 10;
     EGpio gpio_reset 0; EMsleep 130] in
  emitted (jadard_prepare j) (set_dbg_pattern p w)
  = before ++ pulse
    ++ (if c_true p then [EUsleepRange 1000 2000] ++ pulse else [])
    ++ regs
  /\ emitted (jadard_prepare j) (set_dbg_pattern 0 w)
     = before ++ pulse ++ regs
  /\ emitted (jadard_prepare j) (set_dbg_pattern 1 w)
     = before ++ pulse ++ [EUsleepRange 1000 2000] ++ pulse ++ regs
  /\ gpio_writes gpio_dbg regs = []
  /\ gpio_writes gpio_dbg (emitted (jadard_prepare j) (set_dbg_pattern 0 w))
     = [1; 0]
  /\ gpio_writes gpio_dbg (emitted (jadard_prepare j) (set_dbg_pattern 1 w))
     = [1; 0; 1; 0].
Proof.
  intros j regs pulse before.
  assert (G : gpio_writes gpio_dbg regs = []).
  { unfold regs. rewrite run_ops_emitted. apply gpio_writes_script. }
  assert (E : forall q,
             emitted (jadard_prepare j) (set_dbg_pattern q w)
             = before ++ pulse
               ++ (if c_true q then [EUsleepRange 1000 2000] ++ pulse else [])
               ++ regs).
  { intros q. unfold j. rewrite jadard_prepare_shipped_events. fold regs.
    unfold dbg_events, dbg_pulse_events, reset_pulse_events, before, pulse.
    destruct (c_true q); reflexivity. }
  split; [apply E|]. split; [apply (E 0)|]. split; [apply (E 1)|].
  split; [exact G|]. split.
  - rewrite (E 0). change (c_true 0) with false.
    rewrite !gpio_writes_app, G. reflexivity.
  - rewrite (E 1). change (c_true 1) with true.
    rewrite !gpio_writes_app, G. reflexivity.
Qed.

(** C3, counterexample.  Freshly attached instance, flag 0, a bus that
    accepts everything: Prepare writes 1 then 0 to dbg, one diagnostic
    pulse, not zero. *)
Lemma jadard_prepare_dbg_pulse_with_flag_clear :
  complex_dbg_pattern (attached_world 0) = 0
  /\ gpio_writes gpio_dbg
       (emitted (jadard_prepare (shipped_panel (const_bus 0)))
                (attached_world 0))
     = [1; 0]
  /\ gpio_writes gpio_dbg
       (emitted (jadard_prepare (shipped_panel (const_bus 0)))
                (attached_world 0))
     <> [].
Proof.
  vm_compute. repeat split; discriminate.
Qed.

(** C7 (as amended).  The init routine is its debug preamble followed by
    one run of calls on a fresh context: 40 register writes, then tear
    on (vblank), a 30 ms sleep, exit sleep, a 120 ms sleep, display on
    and a 10 ms sleep.  That is three setting calls and three sleeps.
    On a bus that accepts every transaction the routine returns 0 and
    the events it produces are exactly these, in this order. *)
Theorem init_cmds_tail (bus : mipi_dsi_device) (w : world) :
  bus_ok bus ->
  shenzen_z34014_p30_365t_y1_init_cmds bus w
  = (dbg_preamble ;;
     run_ops_k
       (init_register_writes
        ++ [OpSetTearOn MIPI_DSI_DCS_TEAR_MODE_VBLANK; OpMsleep 30;
            OpExitSleepMode; OpMsleep 120;
            OpSetDisplayOn; OpMsleep 10])
       (mkCtx bus 0) (fun ctx => ret (accum_err ctx))) w
  /\ forallb is_write_seq init_register_writes = true
  /\ List.length init_register_writes = 40%nat
  /\ List.length (filter is_setting_call init_ops) = 3%nat
  /\ List.length (filter is_sleep init_ops) = 3%nat
  /\ result (shenzen_z34014_p30_365t_y1_init_cmds bus) w = 0
  /\ emitted (shenzen_z34014_p30_365t_y1_init_cmds bus) w
     = dbg_events (complex_dbg_pattern w)
       ++ map op_event init_register_writes
       ++ [EDsi (DcsSetTearOn MIPI_DSI_DCS_TEAR_MODE_VBLANK); EMsleep 30;
           EDsi DcsExitSleepMode; EMsleep 120;
           EDsi DcsSetDisplayOn; EMsleep 10].
Proof.
  intros OK.
  split; [|split; [|split; [|split; [|split; [|split]]]]].
  - rewrite init_cmds_as_ops, dbg_preamble_then, dbg_preamble_bind.
    unfold init_ops, init_tail. reflexivity.
  - reflexivity.
  - reflexivity.
  - reflexivity.
  - reflexivity.
  - unfold result. rewrite init_cmds_spec. cbn [fst].
    unfold script_status. now rewrite script_bus_ok.
  - unfold emitted, final. rewrite init_cmds_spec. cbn [snd trace].
    rewrite skipn_length_app. unfold script_events.
    rewrite script_bus_ok by assumption. cbn [snd].
    unfold init_ops. now rewrite map_app.
Qed.

Lemma init_cmds_tail_witness :
  bus_ok (const_bus 0)
  /\ result (shenzen_z34014_p30_365t_y1_init_cmds (const_bus 0))
            (attached_world 0) = 0
  /\ List.length (filter is_sleep init_ops) = 3%nat.
Proof.
  assert (OK : bus_ok (const_bus 0)) by (intros n c; simpl; lia).
  destruct (init_cmds_tail (const_bus 0) (attached_world 0) OK)
    as (_ & _ & _ & _ & S3 & R & _).
  exact (conj OK (conj R S3)).
Defined.

(** C7, counterexample.  On a bus that accepts everything the init
    routine sleeps three times with msleep, not twice: 30 ms after tear
    on, 120 ms after exit sleep, 10 ms after display on. *)
Lemma init_cmds_three_sleeps :
  filter is_msleep_event
    (emitted (shenzen_z34014_p30_365t_y1_init_cmds (const_bus 0))
             (attached_world 0))
  = [EMsleep 30; EMsleep 120; EMsleep 10]
  /\ List.length
       (filter is_msleep_event
          (emitted (shenzen_z34014_p30_365t_y1_init_cmds (const_bus 0))
                   (attached_world 0))) <> 2%nat.
Proof.
  vm_compute. split; [reflexivity | discriminate].
Qed.

(** Every byte of the script fits in a u8. *)
Lemma init_register_writes_bytes :
  forallb (fun op => match op with
                     | OpWriteSeq cmd seq =>
                         forallb (fun b => (0 <=? b) && (b <=? 255))
                                 (cmd :: seq)
                     | _ => true
                     end) init_register_writes = true.
Proof. vm_compute. reflexivity. Qed.

(* ------------------------------------------------------------------ *)
(** ** The shipped descriptor *)

(** C10.  The shipped descriptor leaves both flags false and the five
    delays zero.  Hence, for an instance of it: Prepare goes from the two
    power writes straight to the reset pulse and the init routine, with
    no nop on the bus and no settle delay; Disable sleeps nowhere (it
    only issues display off and, when that succeeded, enter sleep); and
    Unprepare drives reset to 0, sleeps 120 ms and cuts vdd and vccio,
    without driving reset again. *)
Theorem shipped_desc_optional_steps_off
    (bus : mipi_dsi_device) (o : drm_panel_orientation) (w : world) :
  let d := shenzen_z34014_p30_365t_y1_desc in
  let j := mkJadard bus d o in
  let off := xfer bus (xfers w) DcsSetDisplayOff in
  (lp11_before_reset d = false
   /\ reset_before_power_off_vcioo d = false
   /\ vcioo_to_lp11_delay_ms d = 0
   /\ lp11_to_reset_delay_ms d = 0
   /\ backlight_off_to_display_off_delay_ms d = 0
   /\ display_off_to_enter_sleep_delay_ms d = 0
   /\ enter_sleep_to_reset_down_delay_ms d = 0)
  /\ jadard_prepare j w
     = shenzen_z34014_p30_365t_y1_init_cmds bus
         (mkWorld 0 1 1 (lvl_dbg w) (complex_dbg_pattern w) (xfers w)
            (trace w
             ++ [EGpio gpio_vccio 1; EGpio gpio_vdd 1;
                 EGpio gpio_reset 0; EMsleep 5;
                 EGpio gpio_reset 1; EMsleep 10;
                 EGpio gpio_reset 0; EMsleep 130]))
  /\ emitted (jadard_disable j) w
     = EDsi DcsSetDisplayOff
       :: (if off <? 0 then [] else [EDsi DcsEnterSleepMode])
  /\ filter is_msleep_event (emitted (jadard_disable j) w) = []
  /\ jadard_unprepare j w
     = (0, mkWorld 0 0 0 (lvl_dbg w) (complex_dbg_pattern w) (xfers w)
             (trace w
              ++ [EGpio gpio_reset 0; EMsleep 120;
                  EGpio gpio_vdd 0; EGpio gpio_vccio 0])).
Proof.
  intros d j off.
  assert (D : emitted (jadard_disable j) w
              = EDsi DcsSetDisplayOff
                :: (if off <? 0 then [] else [EDsi DcsEnterSleepMode])).
  { destruct (jadard_disable_run j w) as (_ & E). rewrite E.
    cbn [desc dsi j d shenzen_z34014_p30_365t_y1_desc
         backlight_off_to_display_off_delay_ms
         display_off_to_enter_sleep_delay_ms
         enter_sleep_to_reset_down_delay_ms].
    unfold delay_events. change (c_true 0) with false. cbv iota.
    fold off. cbn [app].
    destruct (off <? 0); [reflexivity|].
    destruct (xfer bus (S (xfers w)) DcsEnterSleepMode <? 0); reflexivity. }
  split; [repeat split|]. split; [|split; [|split]].
  - apply jadard_prepare_shipped.
  - exact D.
  - rewrite D. destruct (off <? 0); reflexivity.
  - apply jadard_unprepare_spec.
Qed.

(* ------------------------------------------------------------------ *)
(** ** GetModes and the reported mode *)

(** C5.  GetModes returns 1 exactly when the duplication of the mode
    succeeds, and then appends one mode, the named copy of the
    descriptor's mode, to the connector's probed modes and copies the
    mode's width and height into the display info; it returns -ENOMEM
    exactly when the duplication fails, and then leaves the connector as
    it was.  For the shipped descriptor the display info becomes 42 mm
    by 95 mm. *)
Theorem jadard_get_modes_one_mode_or_enomem
    (j : jadard) (alloc_ok : bool) (c : drm_connector) :
  let r := fst (jadard_get_modes j alloc_ok c) in
  let c' := snd (jadard_get_modes j alloc_ok c) in
  (if alloc_ok
   then r = 1
        /\ probed_modes c'
           = probed_modes c ++ [drm_mode_set_name (mode (desc j))]
        /\ List.length (probed_modes c')
           = S (List.length (probed_modes c))
        /\ info_width_mm c' = width_mm (mode (desc j))
        /\ info_height_mm c' = height_mm (mode (desc j))
   else r = - ENOMEM /\ r = -12 /\ c' = c)
  /\ (r = - ENOMEM <-> alloc_ok = false)
  /\ (r = 1 <-> alloc_ok = true)
  /\ (desc j = shenzen_z34014_p30_365t_y1_desc ->
      alloc_ok = true ->
      info_width_mm c' = 42 /\ info_height_mm c' = 95
      /\ exists m, probed_modes c' = probed_modes c ++ [m]
                   /\ name m = "480x1080"%string
                   /\ hdisplay m = 480 /\ vdisplay m = 1080
                   /\ clock m = 43008).
Proof.
  intros r c'. subst r c'. unfold jadard_get_modes, drm_mode_duplicate.
  destruct alloc_ok; cbn [fst snd].
  - split; [|split; [|split]].
    + repeat split. unfold drm_mode_probed_add, set_display_info.
      cbn [probed_modes]. rewrite length_app. simpl. lia.
    + split; intros H; discriminate.
    + split; reflexivity.
    + intros -> _. split; [reflexivity|]. split; [reflexivity|].
      eexists. split; [reflexivity|]. repeat split.
  - split; [|split; [|split]].
    + repeat split.
    + split; reflexivity.
    + split; intros H; discriminate.
    + intros _ H. discriminate.
Qed.

Lemma jadard_get_modes_one_mode_or_enomem_witness :
  info_width_mm
    (snd (jadard_get_modes (shipped_panel (const_bus 0)) true
                           (mkConnector [] 0 0))) = 42
  /\ info_height_mm
       (snd (jadard_get_modes (shipped_panel (const_bus 0)) true
                              (mkConnector [] 0 0))) = 95.
Proof.
  destruct (jadard_get_modes_one_mode_or_enomem
              (shipped_panel (const_bus 0)) true (mkConnector [] 0 0))
    as (_ & _ & _ & S).
  destruct (S eq_refl eq_refl) as (W & H & _).
  exact (conj W H).
Defined.

(** C6.  The shipped mode: 480 by 1080 active pixels; horizontal sync
    start, sync end and total 500, 520, 560 (porches and sync 20, 20,
    40); vertical 1260, 1262, 1280 (180, 2, 18); clock
    (480+20+20+40) * (1080+180+2+18) * 60 / 1000 = 43008 kHz, computed
    within the range of int; 42 mm by 95 mm.  Probe, once the instance is
    allocated, configures the dsi device with the descriptor's two lanes
    and its RGB888 format, 24 bits per pixel. *)
Theorem shipped_mode_values (env : probe_env) (dev : mipi_dsi_device) :
  kzalloc_ok env = true ->
  let d := shenzen_z34014_p30_365t_y1_desc in
  let m := mode d in
  (hdisplay m = 480 /\ vdisplay m = 1080)
  /\ (hsync_start m = 500 /\ hsync_end m = 520 /\ htotal m = 560)
  /\ (hsync_start m - hdisplay m = 20
      /\ hsync_end m - hsync_start m = 20
      /\ htotal m - hsync_end m = 40)
  /\ (vsync_start m = 1260 /\ vsync_end m = 1262 /\ vtotal m = 1280)
  /\ (vsync_start m - vdisplay m = 180
      /\ vsync_end m - vsync_start m = 2
      /\ vtotal m - vsync_end m = 18)
  /\ (clock m = Z.quot (htotal m * vtotal m * 60) 1000
      /\ clock m = 43008
      /\ htotal m * vtotal m * 60 = 43008 * 1000
      /\ in_int (htotal m * vtotal m) = true
      /\ in_int (htotal m * vtotal m * 60) = true)
  /\ (width_mm m = 42 /\ height_mm m = 95)
  /\ (lanes d = 2 /\ format d = MIPI_DSI_FMT_RGB888
      /\ mipi_dsi_pixel_format_to_bpp (format d) = 24)
  /\ (let dev' := probe_dsi (jadard_dsi_probe env d dev) in
      dsi_lanes dev' = 2
      /\ dsi_format dev' = MIPI_DSI_FMT_RGB888
      /\ mipi_dsi_pixel_format_to_bpp (dsi_format dev') = 24)
  /\ of_device_get_match_data jadard_of_match "shenzen,z34014p30365ty1"
     = Some d.
Proof.
  intros K d m.
  repeat (split; [repeat split; reflexivity|]).
  split; [|reflexivity].
  unfold jadard_dsi_probe. rewrite K. cbn [negb].
  repeat match goal with
         | |- context [if ?b then _ else _] => destruct b
         end; repeat split.
Qed.

Lemma shipped_mode_values_witness :
  kzalloc_ok probe_all_ok = true
  /\ clock (mode shenzen_z34014_p30_365t_y1_desc) = 43008
  /\ dsi_lanes (probe_dsi (jadard_dsi_probe probe_all_ok
                             shenzen_z34014_p30_365t_y1_desc (const_bus 0)))
     = 2.
Proof.
  destruct (shipped_mode_values probe_all_ok (const_bus 0) eq_refl)
    as (_ & _ & _ & _ & _ & (_ & C & _) & _ & _ & (L & _) & _).
  exact (conj eq_refl (conj C L)).
Defined.

(* ------------------------------------------------------------------ *)
(** ** A full cycle *)

(** Prepare, Disable, Unprepare of the shipped panel on a bus
    that accepts everything: every hook succeeds, 45 transactions go out
    (43 in Prepare, 2 in Disable) and the lines end low, dbg included. *)
Example shipped_panel_cycle :
  let cycle :=
    (r1 <- jadard_prepare (shipped_panel (const_bus 0)) ;;
     r2 <- jadard_disable (shipped_panel (const_bus 0)) ;;
     r3 <- jadard_unprepare (shipped_panel (const_bus 0)) ;;
     ret (r1, r2, r3)) in
  result cycle (attached_world 0) = (0, 0, 0)
  /\ xfers (final cycle (attached_world 0)) = 45%nat
  /\ level gpio_vdd (final cycle (attached_world 0)) = 0
  /\ level gpio_vccio (final cycle (attached_world 0)) = 0
  /\ level gpio_reset (final cycle (attached_world 0)) = 0
  /\ level gpio_dbg (final cycle (attached_world 0)) = 0
  /\ jadard_panel_get_orientation (shipped_panel (const_bus 0))
     = DRM_MODE_PANEL_ORIENTATION_NORMAL.
Proof. vm_compute. repeat split. Qed.

(* ------------------------------------------------------------------ *)
(** * Further properties *)

(** ** Runs on the accumulated-error context *)

Lemma all_writes_ok_sleep bus n op rest :
  op_cmd op = None ->
  (all_writes_ok bus n (op :: rest) <-> all_writes_ok bus n rest).
Proof.
  unfold all_writes_ok. simpl. intros ->. tauto.
Qed.

Lemma all_writes_ok_cmd bus n op c rest :
  op_cmd op = Some c ->
  (all_writes_ok bus n (op :: rest)
   <-> 0 <= xfer bus n c /\ all_writes_ok bus (S n) rest).
Proof.
  unfold all_writes_ok. simpl. intros ->. split.
  - intros H. split.
    + specialize (H 0%nat c eq_refl). now rewrite Nat.add_0_r in H.
    + intros i c' Hi. specialize (H (S i) c' Hi).
      now rewrite Nat.add_succ_r in H.
  - intros (H0 & H) [|i] c' Hi; simpl in Hi.
    + injection Hi as <-. now rewrite Nat.add_0_r.
    + rewrite Nat.add_succ_r. apply (H i c' Hi).
Qed.

Lemma op_cmd_none_sleep op :
  op_cmd op = None -> exists ms, op = OpMsleep ms.
Proof. destruct op; simpl; try discriminate. eauto. Qed.

Lemma script_status_nonpos bus ops : forall n,
  script_status bus n 0 ops <= 0.
Proof.
  unfold script_status.
  induction ops as [|op rest IH]; intros n; [simpl; lia|].
  destruct (op_cmd op) as [c|] eqn:Ec.
  - rewrite (script_cmd bus n op c rest Ec).
    destruct (Z.ltb_spec (xfer bus n c) 0); [simpl; lia|].
    specialize (IH (S n)).
    destruct (script bus (S n) 0 rest) as [[e m] t]. exact IH.
  - destruct (op_cmd_none_sleep op Ec) as (ms & ->).
    rewrite script_sleep. specialize (IH n).
    destruct (script bus n 0 rest) as [[e m] t]. exact IH.
Qed.

Lemma script_status_zero_iff bus ops : forall n,
  script_status bus n 0 ops = 0 <-> all_writes_ok bus n ops.
Proof.
  unfold script_status.
  induction ops as [|op rest IH]; intros n.
  - simpl. split; auto. intros _ i c H. destruct i; discriminate.
  - destruct (op_cmd op) as [c|] eqn:Ec.
    + rewrite (all_writes_ok_cmd bus n op c rest Ec).
      rewrite (script_cmd bus n op c rest Ec).
      destruct (Z.ltb_spec (xfer bus n c) 0) as [Hlt|Hge].
      * simpl. split; [lia|]. intros (H & _). lia.
      * specialize (IH (S n)).
        destruct (script bus (S n) 0 rest) as [[e m] t]. simpl in *.
        tauto.
    + rewrite (all_writes_ok_sleep bus n op rest Ec).
      destruct (op_cmd_none_sleep op Ec) as (ms & ->).
      rewrite script_sleep. specialize (IH n).
      destruct (script bus n 0 rest) as [[e m] t]. exact IH.
Qed.

Lemma script_all_ok bus ops : forall n,
  all_writes_ok bus n ops ->
  script bus n 0 ops = (0, List.length (bus_cmds ops), map op_event ops).
Proof.
  induction ops as [|op rest IH]; intros n OK; [reflexivity|].
  destruct (op_cmd op) as [c|] eqn:Ec.
  - apply (all_writes_ok_cmd bus n op c rest Ec) in OK.
    destruct OK as (H0 & OK).
    rewrite (script_cmd bus n op c rest Ec).
    destruct (Z.ltb_spec (xfer bus n c) 0); [lia|].
    rewrite (IH (S n) OK). simpl. rewrite Ec.
    destruct op; simpl in *; try discriminate; injection Ec as <-;
      reflexivity.
  - apply (all_writes_ok_sleep bus n op rest Ec) in OK.
    destruct (op_cmd_none_sleep op Ec) as (ms & ->).
    rewrite script_sleep, (IH n OK). reflexivity.
Qed.

(** What the hardware sees of a script is a prefix of the script. *)
Lemma script_events_prefix bus ops : forall n err,
  exists rest, map op_event ops = script_events bus n err ops ++ rest.
Proof.
  unfold script_events.
  induction ops as [|op tl IH]; intros n err; simpl.
  - exists []. reflexivity.
  - destruct (c_true err) eqn:E.
    + pose proof (script_after_error bus (op :: tl) n err E) as H.
      simpl in H. rewrite H. simpl. eauto.
    + destruct (IH (n + step_xfers err op)%nat (step_status bus n err op))
        as (rest & Hrest).
      destruct (script bus _ _ tl) as [[e m] t]. simpl in *.
      unfold step_events. rewrite E. simpl. exists rest. now rewrite Hrest.
Qed.

Lemma script_xfers_le bus ops : forall n err,
  (script_xfers bus n err ops <= List.length (bus_cmds ops))%nat.
Proof.
  unfold script_xfers.
  induction ops as [|op tl IH]; intros n err; simpl; [lia|].
  specialize (IH (n + step_xfers err op)%nat (step_status bus n err op)).
  destruct (script bus _ _ tl) as [[e m] t]. simpl in *.
  unfold step_xfers. destruct (c_true err); destruct (op_cmd op); simpl; lia.
Qed.

(** X1.  The status a run on a fresh accumulated-error context leaves is
    never positive, and it is 0 exactly when every write of the run
    succeeded; the run then performed every call, sleeps included, in
    order.  So Disable, the init routine, and Prepare on the shipped
    descriptor return 0 exactly when all of their writes succeeded, and
    a negative errno otherwise. *)
Theorem accumulated_status_zero_iff_all_writes_ok
    (bus : mipi_dsi_device) (o : drm_panel_orientation)
    (d : jadard_panel_desc) (ops : list multi_op) (w : world) :
  (accum_err (result (run_ops ops (mkCtx bus 0)) w) <= 0
   /\ (accum_err (result (run_ops ops (mkCtx bus 0)) w) = 0
       <-> all_writes_ok bus (xfers w) ops)
   /\ (all_writes_ok bus (xfers w) ops ->
       emitted (run_ops ops (mkCtx bus 0)) w = map op_event ops))
  /\ (result (jadard_disable (mkJadard bus d o)) w <= 0
      /\ (result (jadard_disable (mkJadard bus d o)) w = 0
          <-> all_writes_ok bus (xfers w) (disable_ops d)))
  /\ (result (shenzen_z34014_p30_365t_y1_init_cmds bus) w <= 0
      /\ (result (shenzen_z34014_p30_365t_y1_init_cmds bus) w = 0
          <-> all_writes_ok bus (xfers w) init_ops))
  /\ (result (jadard_prepare
                (mkJadard bus shenzen_z34014_p30_365t_y1_desc o)) w <= 0
      /\ (result (jadard_prepare
                    (mkJadard bus shenzen_z34014_p30_365t_y1_desc o)) w = 0
          <-> all_writes_ok bus (xfers w) init_ops)).
Proof.
  split; [|split; [|split]].
  - unfold result. rewrite run_ops_emitted, run_ops_spec.
    cbn [fst accum_err ctx_dsi]. split; [apply script_status_nonpos|].
    split; [apply script_status_zero_iff|].
    intros OK. unfold script_events. now rewrite script_all_ok.
  - unfold result. rewrite jadard_disable_spec. cbn [fst dsi desc].
    split; [apply script_status_nonpos | apply script_status_zero_iff].
  - unfold result. rewrite init_cmds_spec. cbn [fst].
    split; [apply script_status_nonpos | apply script_status_zero_iff].
  - unfold result. rewrite jadard_prepare_shipped, init_cmds_spec.
    cbn [fst xfers].
    split; [apply script_status_nonpos | apply script_status_zero_iff].
Qed.

Lemma accumulated_status_zero_iff_all_writes_ok_witness :
  all_writes_ok (const_bus 0) 0 init_ops
  /\ result (jadard_prepare (shipped_panel (const_bus 0))) (attached_world 0)
     = 0.
Proof.
  assert (OK : all_writes_ok (const_bus 0) 0 init_ops)
    by (intros i c _; simpl; lia).
  split; [exact OK|].
  destruct (accumulated_status_zero_iff_all_writes_ok (const_bus 0)
              DRM_MODE_PANEL_ORIENTATION_NORMAL
              shenzen_z34014_p30_365t_y1_desc init_ops (attached_world 0))
    as (_ & _ & _ & _ & P).
  exact (proj2 P OK).
Defined.

(** X2.  Whatever the bus answers, the bus and the sleeps of Disable and
    of the init routine are a prefix of the full sequence of the
    routine: nothing is reordered, repeated or added when a write
    fails, and at most the routine's writes go out (2 for Disable, 43
    for the init routine). *)
Theorem hooks_emit_a_prefix_of_their_script
    (j : jadard) (bus : mipi_dsi_device) (w : world) :
  (exists rest,
      map op_event (disable_ops (desc j))
      = emitted (jadard_disable j) w ++ rest)
  /\ (exists rest,
         dbg_events (complex_dbg_pattern w) ++ map op_event init_ops
         = emitted (shenzen_z34014_p30_365t_y1_init_cmds bus) w ++ rest)
  /\ (xfers (final (jadard_disable j) w) <= xfers w + 2)%nat
  /\ (xfers (final (shenzen_z34014_p30_365t_y1_init_cmds bus) w)
      <= xfers w + 43)%nat.
Proof.
  split; [|split; [|split]].
  - rewrite (emitted_advance _ _ _ _
               (f_equal snd (jadard_disable_spec j w))).
    apply script_events_prefix.
  - unfold emitted, final. rewrite init_cmds_spec. cbn [snd trace].
    rewrite skipn_length_app.
    destruct (script_events_prefix bus init_ops (xfers w) 0) as (rest & H).
    exists rest. now rewrite H, app_assoc.
  - unfold final. rewrite jadard_disable_spec. cbn [snd advance xfers].
    pose proof (script_xfers_le (dsi j) (disable_ops (desc j)) (xfers w) 0)
      as H.
    assert (L : (List.length (bus_cmds (disable_ops (desc j))) = 2)%nat).
    { unfold disable_ops, opt_sleep.
      destruct (c_true (backlight_off_to_display_off_delay_ms (desc j)));
        destruct (c_true (display_off_to_enter_sleep_delay_ms (desc j)));
        destruct (c_true (enter_sleep_to_reset_down_delay_ms (desc j)));
        reflexivity. }
    lia.
  - unfold final. rewrite init_cmds_spec. cbn [snd xfers].
    pose proof (script_xfers_le bus init_ops (xfers w) 0) as H.
    change (List.length (bus_cmds init_ops)) with 43%nat in H. lia.
Qed.

(** ** What the hooks do to the lines *)

(** X3.  Disable never touches a GPIO line or the debug flag: for every
    descriptor, bus and world the four levels and the flag after
    Disable are those before it, and no GPIO write is logged. *)
Theorem jadard_disable_leaves_lines (j : jadard) (w : world) :
  level gpio_reset (final (jadard_disable j) w) = level gpio_reset w
  /\ level gpio_vdd (final (jadard_disable j) w) = level gpio_vdd w
  /\ level gpio_vccio (final (jadard_disable j) w) = level gpio_vccio w
  /\ level gpio_dbg (final (jadard_disable j) w) = level gpio_dbg w
  /\ complex_dbg_pattern (final (jadard_disable j) w)
     = complex_dbg_pattern w
  /\ (forall l, gpio_writes l (emitted (jadard_disable j) w) = []).
Proof.
  unfold final.
  rewrite (emitted_advance _ _ _ _
             (f_equal snd (jadard_disable_spec j w))).
  rewrite jadard_disable_spec. cbn [snd advance level lvl_reset lvl_vdd
                                     lvl_vccio lvl_dbg complex_dbg_pattern].
  repeat split. intros l. apply gpio_writes_script.
Qed.

(** X4.  Prepare never lowers a power line.  For every descriptor whose
    init routine does not itself write vdd, vccio or reset, and whatever
    the outcome (success, failed nop, failed init), vdd and vccio are 1
    after Prepare; reset is 0, except after a failed nop, where it still
    has the level it had before Prepare. *)
Theorem jadard_prepare_leaves_power_on (j : jadard) (w : world) :
  keeps_power_lines (init (desc j)) ->
  level gpio_vdd (final (jadard_prepare j) w) = 1
  /\ level gpio_vccio (final (jadard_prepare j) w) = 1
  /\ level gpio_reset (final (jadard_prepare j) w)
     = (if nop_fails j w then level gpio_reset w else 0).
Proof.
  intros K. unfold final. rewrite jadard_prepare_spec.
  destruct (nop_fails j w).
  - repeat split.
  - destruct (K (dsi j) (init_entry_world j w)) as (H1 & H2 & H3).
    unfold final in *. rewrite H1, H2, H3. repeat split.
Qed.

Lemma jadard_prepare_leaves_power_on_witness :
  level gpio_vdd
    (final (jadard_prepare (lp11_panel (const_bus (-110))))
           (attached_world 0)) = 1
  /\ level gpio_vccio
       (final (jadard_prepare (lp11_panel (const_bus (-110))))
              (attached_world 0)) = 1
  /\ level gpio_reset
       (final (jadard_prepare (lp11_panel (const_bus (-110))))
              (attached_world 0)) = 1.
Proof.
  exact (jadard_prepare_leaves_power_on (lp11_panel (const_bus (-110)))
           (attached_world 0) init_cmds_keeps_power_lines).
Defined.

Lemma script_xfers_pos bus n op c rest :
  op_cmd op = Some c -> (1 <= script_xfers bus n 0 (op :: rest))%nat.
Proof.
  intros Ec. unfold script_xfers. rewrite (script_cmd bus n op c rest Ec).
  destruct (xfer bus n c <? 0); [simpl; lia|].
  destruct (script bus (S n) 0 rest) as [[e m] t]. simpl. lia.
Qed.

Lemma disable_xfers_pos bus d n :
  (1 <= script_xfers bus n 0 (disable_ops d))%nat.
Proof.
  unfold disable_ops, opt_sleep.
  destruct (c_true (backlight_off_to_display_off_delay_ms d)); cbn [app].
  - unfold script_xfers. rewrite script_sleep.
    pose proof (script_xfers_pos bus n OpSetDisplayOff DcsSetDisplayOff
                  (opt_sleep (display_off_to_enter_sleep_delay_ms d)
                   ++ [OpEnterSleepMode]
                   ++ opt_sleep (enter_sleep_to_reset_down_delay_ms d))
                  eq_refl) as H.
    unfold script_xfers, opt_sleep in H.
    destruct (script bus n 0 _) as [[e m] t]. exact H.
  - apply (script_xfers_pos bus n OpSetDisplayOff DcsSetDisplayOff _ eq_refl).
Qed.

Lemma init_xfers_pos bus n : (1 <= script_xfers bus n 0 init_ops)%nat.
Proof.
  exact (script_xfers_pos bus n
           (OpWriteSeq 0xDF [0x90; 0x69; 0xF9])
           (DcsWriteBuffer [0xDF; 0x90; 0x69; 0xF9])
           (tl init_ops) eq_refl).
Qed.

(** X5.  Prepare, Disable, Unprepare in this order on the shipped panel,
    for every bus and every starting world: Unprepare returns 0 and the
    other two a status that is never positive; at the end vdd, vccio,
    reset and dbg are all 0 (not the levels of a fresh attach, where
    reset and dbg are 1), the debug flag is as before, and between 2 and
    45 transactions were issued, the first write of the init routine and
    display off among them. *)
Theorem power_cycle_ends_powered_down
    (bus : mipi_dsi_device) (o : drm_panel_orientation) (w : world) :
  let j := mkJadard bus shenzen_z34014_p30_365t_y1_desc o in
  let r := result (power_cycle j) w in
  let w' := final (power_cycle j) w in
  snd r = 0 /\ fst (fst r) <= 0 /\ snd (fst r) <= 0
  /\ level gpio_vdd w' = 0 /\ level gpio_vccio w' = 0
  /\ level gpio_reset w' = 0 /\ level gpio_dbg w' = 0
  /\ complex_dbg_pattern w' = complex_dbg_pattern w
  /\ (xfers w + 2 <= xfers w' <= xfers w + 45)%nat.
Proof.
  intros j r w'. subst r w' j. unfold result, final, power_cycle.
  unfold bind. rewrite jadard_prepare_shipped, init_cmds_spec.
  rewrite jadard_disable_spec, jadard_unprepare_spec.
  cbn [fst snd level lvl_vdd lvl_vccio lvl_reset lvl_dbg complex_dbg_pattern
       xfers advance desc dsi reset_before_power_off_vcioo
       shenzen_z34014_p30_365t_y1_desc ret].
  split; [reflexivity|]. split; [apply script_status_nonpos|].
  split; [apply script_status_nonpos|]. repeat (split; [reflexivity|]).
  pose proof (script_xfers_le bus init_ops (xfers w) 0) as H1.
  pose proof (init_xfers_pos bus (xfers w)) as H2.
  change (List.length (bus_cmds init_ops)) with 43%nat in H1.
  set (n1 := (xfers w + script_xfers bus (xfers w) 0 init_ops)%nat).
  pose proof (script_xfers_le bus
                (disable_ops shenzen_z34014_p30_365t_y1_desc) n1 0) as H3.
  pose proof (disable_xfers_pos bus shenzen_z34014_p30_365t_y1_desc n1)
    as H4.
  change (List.length (bus_cmds (disable_ops shenzen_z34014_p30_365t_y1_desc)))
    with 2%nat in H3.
  lia.
Qed.

(** ** Time spent in Prepare *)

Lemma msleep_total_app t1 t2 :
  msleep_total (t1 ++ t2) = msleep_total t1 + msleep_total t2.
Proof.
  induction t1 as [|e t1 IH]; simpl; auto. destruct e; lia.
Qed.

Lemma sleeps_nonneg_app t1 t2 :
  sleeps_nonneg (t1 ++ t2) = sleeps_nonneg t1 && sleeps_nonneg t2.
Proof. unfold sleeps_nonneg. apply forallb_app. Qed.

Lemma msleep_total_nonneg t : sleeps_nonneg t = true -> 0 <= msleep_total t.
Proof.
  induction t as [|e t IH]; simpl; [lia|].
  intros H. apply andb_prop in H. destruct H as (He & Ht).
  specialize (IH Ht). destruct e; try lia.
Qed.

Lemma init_ops_msleep_total : msleep_total (map op_event init_ops) = 160.
Proof. vm_compute. reflexivity. Qed.

Lemma init_ops_sleeps_nonneg :
  sleeps_nonneg (map op_event init_ops) = true.
Proof. vm_compute. reflexivity. Qed.

Lemma jadard_prepare_shipped_emitted bus o w :
  emitted (jadard_prepare (mkJadard bus shenzen_z34014_p30_365t_y1_desc o)) w
  = ([EGpio gpio_vccio 1; EGpio gpio_vdd 1] ++ reset_pulse_events
     ++ dbg_events (complex_dbg_pattern w))
    ++ script_events bus (xfers w) 0 init_ops.
Proof.
  unfold emitted, final. rewrite jadard_prepare_shipped, init_cmds_spec.
  cbn [snd trace xfers complex_dbg_pattern].
  rewrite <- !app_assoc, skipn_length_app. reflexivity.
Qed.

Lemma jadard_prepare_shipped_result bus o w :
  result (jadard_prepare (mkJadard bus shenzen_z34014_p30_365t_y1_desc o)) w
  = script_status bus (xfers w) 0 init_ops.
Proof.
  unfold result. rewrite jadard_prepare_shipped, init_cmds_spec.
  cbn [fst xfers]. reflexivity.
Qed.

Lemma prepare_preamble_msleep p :
  msleep_total ([EGpio gpio_vccio 1; EGpio gpio_vdd 1] ++ reset_pulse_events
                ++ dbg_events p) = 145.
Proof.
  unfold dbg_events, dbg_pulse_events, reset_pulse_events.
  destruct (c_true p); reflexivity.
Qed.

(** The msleep time of a run of the init script: at most 160 ms, and
    160 ms when every write succeeds. *)
Lemma init_script_msleep bus n :
  0 <= msleep_total (script_events bus n 0 init_ops) <= 160
  /\ (script_status bus n 0 init_ops = 0 ->
      msleep_total (script_events bus n 0 init_ops) = 160).
Proof.
  destruct (script_events_prefix bus init_ops n 0) as (rest & H).
  pose proof init_ops_msleep_total as T.
  pose proof init_ops_sleeps_nonneg as N.
  rewrite H in T, N. rewrite msleep_total_app in T.
  rewrite sleeps_nonneg_app in N. apply andb_prop in N.
  destruct N as (N1 & N2).
  apply msleep_total_nonneg in N1. apply msleep_total_nonneg in N2.
  split; [lia|].
  intros R. apply script_status_zero_iff in R.
  unfold script_events. rewrite (script_all_ok bus init_ops _ R).
  exact init_ops_msleep_total.
Qed.

(** X6.  Prepare on the shipped panel, for every bus and world, spends
    between 145 ms and 305 ms in msleep: the 145 ms of the reset pulse
    always, and of the 160 ms of the init routine as much as precedes
    the first failed write.  When Prepare returns 0 it spent the full
    305 ms. *)
Theorem jadard_prepare_msleep_budget
    (bus : mipi_dsi_device) (o : drm_panel_orientation) (w : world) :
  let j := mkJadard bus shenzen_z34014_p30_365t_y1_desc o in
  145 <= msleep_total (emitted (jadard_prepare j) w) <= 305
  /\ (result (jadard_prepare j) w = 0 ->
      msleep_total (emitted (jadard_prepare j) w) = 305).
Proof.
  intros j. subst j.
  rewrite jadard_prepare_shipped_emitted, msleep_total_app,
    prepare_preamble_msleep.
  destruct (init_script_msleep bus (xfers w)) as (B & Z0).
  split; [lia|].
  intros R. rewrite jadard_prepare_shipped_result in R.
  rewrite (Z0 R). reflexivity.
Qed.

Lemma jadard_prepare_msleep_budget_witness :
  result (jadard_prepare (shipped_panel (const_bus 0))) (attached_world 0) = 0
  /\ msleep_total
       (emitted (jadard_prepare (shipped_panel (const_bus 0)))
                (attached_world 0)) = 305.
Proof.
  assert (R : result (jadard_prepare (shipped_panel (const_bus 0)))
                     (attached_world 0) = 0) by (vm_compute; reflexivity).
  split; [exact R|].
  exact (proj2 (jadard_prepare_msleep_budget (const_bus 0)
                  DRM_MODE_PANEL_ORIENTATION_NORMAL (attached_world 0)) R).
Defined.

(** ** GetModes, repeated *)

(** X7.  GetModes is not idempotent: every successful call appends one
    more copy of the descriptor's mode to the connector's probed modes,
    after the modes already there, so n calls leave n copies.  The copy
    has the timings, sizes, type and flags of the descriptor's mode; only
    its name is set.  After the first call the display info holds the
    mode's width and height. *)
Theorem jadard_get_modes_appends_each_call
    (j : jadard) (n : nat) (c : drm_connector) :
  let m := drm_mode_set_name (mode (desc j)) in
  probed_modes (get_modes_n j n c) = probed_modes c ++ repeat m n
  /\ List.length (probed_modes (get_modes_n j n c))
     = (List.length (probed_modes c) + n)%nat
  /\ info_width_mm (get_modes_n j (S n) c) = width_mm (mode (desc j))
  /\ info_height_mm (get_modes_n j (S n) c) = height_mm (mode (desc j))
  /\ (clock m = clock (mode (desc j))
      /\ hdisplay m = hdisplay (mode (desc j))
      /\ hsync_start m = hsync_start (mode (desc j))
      /\ hsync_end m = hsync_end (mode (desc j))
      /\ htotal m = htotal (mode (desc j))
      /\ vdisplay m = vdisplay (mode (desc j))
      /\ vsync_start m = vsync_start (mode (desc j))
      /\ vsync_end m = vsync_end (mode (desc j))
      /\ vtotal m = vtotal (mode (desc j))
      /\ width_mm m = width_mm (mode (desc j))
      /\ height_mm m = height_mm (mode (desc j))
      /\ type m = type (mode (desc j))
      /\ flags m = flags (mode (desc j))).
Proof.
  intros m.
  assert (P : forall k,
             probed_modes (get_modes_n j k c) = probed_modes c ++ repeat m k).
  { induction k as [|k IH]; simpl.
    - now rewrite app_nil_r.
    - unfold jadard_get_modes, drm_mode_duplicate, drm_mode_probed_add,
        set_display_info. cbn [snd probed_modes]. rewrite IH. fold m.
      rewrite <- app_assoc. f_equal.
      change [m] with (repeat m 1). rewrite <- repeat_app.
      now rewrite Nat.add_1_r. }
  split; [apply P|]. split.
  - rewrite P, length_app, repeat_length. reflexivity.
  - repeat split.
Qed.

(** ** Probe *)

Lemma probe_succeeds_true env :
  probe_succeeds env = true ->
  kzalloc_ok env = true
  /\ 0 <= get_reset env /\ 0 <= get_vdd env /\ 0 <= get_vccio env
  /\ 0 <= get_dbg env /\ 0 <= orientation_ret env
  /\ backlight_ret env = 0 /\ 0 <= attach_ret env.
Proof.
  unfold probe_succeeds. intros H.
  repeat (apply andb_prop in H; destruct H as (H & ?)).
  repeat match goal with
         | H : (_ <=? _) = true |- _ => apply Z.leb_le in H
         | H : (_ =? _) = true |- _ => apply Z.eqb_eq in H
         end.
  auto 10.
Qed.

Lemma jadard_dsi_probe_panel env d dev :
  probe_panel (jadard_dsi_probe env d dev)
  = if probe_succeeds env
    then Some (mkJadard (configured d dev) d (orientation_val env))
    else None.
Proof.
  unfold jadard_dsi_probe, probe_succeeds, configured, c_true.
  destruct (kzalloc_ok env); cbn [negb andb]; [|reflexivity].
  rewrite !Z.leb_antisym.
  destruct (get_reset env <? 0); cbn [negb andb probe_panel]; auto.
  destruct (get_vdd env <? 0); cbn [negb andb probe_panel]; auto.
  destruct (get_vccio env <? 0); cbn [negb andb probe_panel]; auto.
  destruct (get_dbg env <? 0); cbn [negb andb probe_panel]; auto.
  destruct (orientation_ret env <? 0); cbn [negb andb probe_panel]; auto.
  destruct (backlight_ret env =? 0); cbn [negb andb probe_panel]; auto.
  destruct (attach_ret env <? 0); reflexivity.
Qed.

Lemma jadard_dsi_probe_ret env d dev :
  probe_succeeds env = true ->
  probe_ret (jadard_dsi_probe env d dev) = attach_ret env.
Proof.
  intros H. apply probe_succeeds_true in H.
  destruct H as (K & R & V & C & D & O & B & A).
  unfold jadard_dsi_probe, c_true. rewrite K, B. cbn [negb Z.eqb].
  repeat match goal with
         | |- context [?x <? 0] =>
             destruct (Z.ltb_spec x 0); [lia|]
         end.
  reflexivity.
Qed.

Lemma jadard_dsi_probe_ret_failure env d dev :
  probe_succeeds env = false ->
  probe_ret (jadard_dsi_probe env d dev) <> 0.
Proof.
  unfold jadard_dsi_probe, probe_succeeds, c_true, ENOMEM.
  destruct (kzalloc_ok env); cbn [negb andb probe_ret]; [|discriminate].
  rewrite !Z.leb_antisym.
  destruct (Z.ltb_spec (get_reset env) 0);
    cbn [negb andb probe_ret]; [lia|].
  destruct (Z.ltb_spec (get_vdd env) 0);
    cbn [negb andb probe_ret]; [lia|].
  destruct (Z.ltb_spec (get_vccio env) 0);
    cbn [negb andb probe_ret]; [lia|].
  destruct (Z.ltb_spec (get_dbg env) 0);
    cbn [negb andb probe_ret]; [lia|].
  destruct (Z.ltb_spec (orientation_ret env) 0);
    cbn [negb andb probe_ret]; [lia|].
  destruct (Z.eqb_spec (backlight_ret env) 0);
    cbn [negb andb probe_ret]; [|lia].
  destruct (Z.ltb_spec (attach_ret env) 0);
    cbn [negb andb probe_ret]; [lia|discriminate].
Qed.

(** X8.  Probe leaves a panel registered exactly when every step
    succeeded: the allocation, the four GPIO lookups, the orientation
    lookup, the backlight lookup (status 0) and the attach.  The panel
    then holds the descriptor, the orientation the platform reported and
    the dsi device as configured (the four mode flags, the descriptor's
    format and lanes), and probe returns the status of the attach.  In
    every other case no panel stays registered; in particular a failed
    attach removes the panel that was just added. *)
Theorem jadard_dsi_probe_registers_iff_all_steps_succeed
    (env : probe_env) (d : jadard_panel_desc) (dev : mipi_dsi_device) :
  probe_panel (jadard_dsi_probe env d dev)
  = (if probe_succeeds env
     then Some (mkJadard (configured d dev) d (orientation_val env))
     else None)
  /\ (probe_succeeds env = true
      <-> kzalloc_ok env = true
          /\ 0 <= get_reset env /\ 0 <= get_vdd env /\ 0 <= get_vccio env
          /\ 0 <= get_dbg env /\ 0 <= orientation_ret env
          /\ backlight_ret env = 0 /\ 0 <= attach_ret env)
  /\ (probe_succeeds env = true ->
      probe_ret (jadard_dsi_probe env d dev) = attach_ret env)
  /\ (attach_ret env < 0 ->
      probe_panel (jadard_dsi_probe env d dev) = None).
Proof.
  split; [apply jadard_dsi_probe_panel|]. split; [|split].
  - split; [apply probe_succeeds_true|].
    intros (K & R & V & C & D & O & B & A). unfold probe_succeeds.
    rewrite K, B. cbn [andb Z.eqb].
    repeat match goal with
           | |- context [0 <=? ?x] =>
               destruct (Z.leb_spec 0 x); [|lia]
           end.
    reflexivity.
  - apply jadard_dsi_probe_ret.
  - intros A. rewrite jadard_dsi_probe_panel.
    destruct (probe_succeeds env) eqn:E; [|reflexivity].
    apply probe_succeeds_true in E. lia.
Qed.

Lemma jadard_dsi_probe_registers_iff_all_steps_succeed_witness :
  probe_succeeds probe_all_ok = true
  /\ probe_ret (jadard_dsi_probe probe_all_ok
                  shenzen_z34014_p30_365t_y1_desc (const_bus 0)) = 0.
Proof.
  destruct (jadard_dsi_probe_registers_iff_all_steps_succeed probe_all_ok
              shenzen_z34014_p30_365t_y1_desc (const_bus 0))
    as (_ & _ & R & _).
  exact (conj eq_refl (R eq_refl)).
Defined.

(** X9.  The value probe returns tells whether a panel is registered
    only in one direction.  A return of 0 means a panel is registered,
    and a registered panel means a return that is not negative.  But a
    probe that registers nothing always returns a non-zero value, which
    is positive when the backlight lookup answered a positive status
    (probe tests it with if (ret), not with ret < 0). *)
Theorem jadard_dsi_probe_return_value
    (env : probe_env) (d : jadard_panel_desc) (dev : mipi_dsi_device) :
  (probe_ret (jadard_dsi_probe env d dev) = 0 ->
   exists j, probe_panel (jadard_dsi_probe env d dev) = Some j)
  /\ (probe_panel (jadard_dsi_probe env d dev) = None ->
      probe_ret (jadard_dsi_probe env d dev) <> 0)
  /\ (probe_panel (jadard_dsi_probe env d dev) <> None ->
      0 <= probe_ret (jadard_dsi_probe env d dev))
  /\ (kzalloc_ok env = false ->
      probe_ret (jadard_dsi_probe env d dev) = - ENOMEM
      /\ probe_dsi (jadard_dsi_probe env d dev) = dev)
  /\ (kzalloc_ok env = true ->
      probe_dsi (jadard_dsi_probe env d dev) = configured d dev).
Proof.
  rewrite jadard_dsi_probe_panel.
  split; [|split; [|split; [|split]]].
  - intros R. destruct (probe_succeeds env) eqn:E; [eauto|].
    now apply (jadard_dsi_probe_ret_failure env d dev) in E.
  - destruct (probe_succeeds env) eqn:E; [discriminate|].
    intros _. now apply jadard_dsi_probe_ret_failure.
  - destruct (probe_succeeds env) eqn:E; [|congruence].
    intros _. rewrite (jadard_dsi_probe_ret env d dev E).
    apply probe_succeeds_true in E. tauto.
  - intros K. unfold jadard_dsi_probe. rewrite K. split; reflexivity.
  - intros K. unfold jadard_dsi_probe, configured. rewrite K. cbn [negb].
    repeat match goal with
           | |- context [if ?b then _ else _] => destruct b
           end; reflexivity.
Qed.

Lemma jadard_dsi_probe_return_value_witness :
  probe_panel (jadard_dsi_probe probe_backlight_positive
                 shenzen_z34014_p30_365t_y1_desc (const_bus 0)) = None
  /\ probe_ret (jadard_dsi_probe probe_backlight_positive
                  shenzen_z34014_p30_365t_y1_desc (const_bus 0)) = 7
  /\ probe_ret (jadard_dsi_probe probe_backlight_positive
                  shenzen_z34014_p30_365t_y1_desc (const_bus 0)) <> 0.
Proof.
  destruct (jadard_dsi_probe_return_value probe_backlight_positive
              shenzen_z34014_p30_365t_y1_desc (const_bus 0))
    as (_ & N & _).
  exact (conj eq_refl (conj eq_refl (N eq_refl))).
Defined.

(** X10.  GetOrientation on the panel a probe registered returns the
    orientation the platform reported during that probe; the panel
    carries the descriptor probe was given, and its dsi handle reaches
    the same bus as the device probe received. *)
Theorem jadard_panel_get_orientation_after_probe
    (env : probe_env) (d : jadard_panel_desc) (dev : mipi_dsi_device)
    (j : jadard) :
  probe_panel (jadard_dsi_probe env d dev) = Some j ->
  jadard_panel_get_orientation j = orientation_val env
  /\ desc j = d
  /\ xfer (dsi j) = xfer dev
  /\ dsi_lanes (dsi j) = lanes d
  /\ dsi_format (dsi j) = format d.
Proof.
  rewrite jadard_dsi_probe_panel.
  destruct (probe_succeeds env); [|discriminate].
  intros H. injection H as <-. repeat split.
Qed.

Lemma jadard_panel_get_orientation_after_probe_witness :
  jadard_panel_get_orientation
    (mkJadard (configured shenzen_z34014_p30_365t_y1_desc (const_bus 0))
              shenzen_z34014_p30_365t_y1_desc
              DRM_MODE_PANEL_ORIENTATION_NORMAL)
  = DRM_MODE_PANEL_ORIENTATION_NORMAL.
Proof.
  exact (proj1 (jadard_panel_get_orientation_after_probe probe_all_ok
                  shenzen_z34014_p30_365t_y1_desc (const_bus 0) _ eq_refl)).
Defined.
